(** * DataVex Intelligence: the React front end and the lead pipeline

    A shallow embedding of [frontend/src/App.jsx] (the two-mode version with
    [mode], [domain] and the deep-analysis report) and of the enterprise
    filter of the lead pipeline.

    Conventions of the embedding.
    - A JavaScript string is the list of its UTF-16 code units.
    - React state is one record [State]; a setter is a state update; a
      functional update [setX(prev => ...)] is applied to the current state.
    - An event handler is a computation in a small monad [M] that threads the
      [World] (the React state and the log of outside effects) and may throw;
      [try]/[catch]/[finally] are combinators of that monad.  A handler reads
      [mode], [domain] and [serviceCategory] from the render that created it,
      so it takes that render's state as an argument.
    - The back end is an oracle [Net]: it answers the n-th request either
      with a response or with an error that axios throws.
    - A handler runs to its end before the next event is handled; the pauses
      between trace lines are recorded in the log and carry no state.
    - JSON data is typed by the interface of the back end; a field is
      optional where the front end itself tests it ([!x], [x?.y]), and so is
      [agent_trace], which the front end iterates without a test: a
      response without an [agent_trace] that can be iterated makes the
      [for...of] throw a [TypeError] inside the [try]. *)

From Stdlib Require Import ZArith NArith String Ascii List Bool Lia.
From stdpp Require Import base option list strings pretty gmap.

Local Open Scope Z_scope.
Local Open Scope list_scope.

(** ** JavaScript strings *)

Abbreviation jsstring := (list N).

Definition js (s : string) : jsstring :=
  map N_of_ascii (list_ascii_of_string s).

(** [WhiteSpace] and [LineTerminator] code points of ECMAScript, the ones
    [String.prototype.trim] removes. *)
Definition is_js_whitespace (c : N) : bool :=
  ((c =? 9) || (c =? 10) || (c =? 11) || (c =? 12) || (c =? 13) || (c =? 32)
   || (c =? 160) || (c =? 5760) || ((8192 <=? c) && (c <=? 8202))
   || (c =? 8232) || (c =? 8233) || (c =? 8239) || (c =? 8287)
   || (c =? 12288) || (c =? 65279))%N.

Fixpoint trimStart (s : jsstring) : jsstring :=
  match s with
  | [] => []
  | c :: s' => if is_js_whitespace c then trimStart s' else s
  end.

Definition trimEnd (s : jsstring) : jsstring := rev (trimStart (rev s)).

Definition trim (s : jsstring) : jsstring := trimEnd (trimStart s).

(** Truthiness of a string value: only the empty string is falsy. *)
Definition truthy (s : jsstring) : bool :=
  match s with [] => false | _ :: _ => true end.

(** [x || dflt] where [x] is a string or [undefined]. *)
Definition or_else (x : option jsstring) (dflt : jsstring) : jsstring :=
  match x with
  | Some s => if truthy s then s else dflt
  | None => dflt
  end.

Definition jsstring_eqb (a b : jsstring) : bool := bool_decide (a = b).

(** * The front end *)

Module App.

(** The same list is declared by both versions of [App.jsx]. *)
Definition SERVICE_CATEGORIES : list jsstring :=
  [ js "Application Development";
    js "AI & Data Analytics";
    js "Cloud & DevOps";
    js "Digital Transformation" ].

Definition API_BASE_URL : jsstring := js "http://localhost:8000".

(** ** Data received from the back end *)

Module Lead.
Record t := { name : jsstring; domain : jsstring; why_we_help : jsstring }.
End Lead.

Module Dossier.
Record t := {
  title : jsstring;
  domain : jsstring;
  industry : jsstring;
  summary : jsstring;
  estimated_tech_stack : option (list jsstring);
  company_stage : jsstring;
  company_size : jsstring;
  analysis_timestamp : jsstring }.
End Dossier.

Module Verdict.
Record t := {
  recommendation : option jsstring;
  score : option Z;
  justification : option jsstring;
  size_flag : option jsstring }.
End Verdict.

Module Strategic.
Record t := {
  why_now : option jsstring;
  pain_points : option (list jsstring);
  datavex_service_match : option jsstring }.
End Strategic.

Module Outreach.
Record t := {
  target_role : option jsstring;
  subject_line : option jsstring;
  custom_pitch : option jsstring }.
End Outreach.

(** [res.data] of /analyze and /deep_analyze.  [agent_trace] is [None] when
    the field is missing or is a value that cannot be iterated. *)
Record Analysis := {
  agent_trace : option (list jsstring);
  leads : option (list Lead.t);
  company_dossier : option Dossier.t;
  strategic_analysis : option Strategic.t;
  verdict : option Verdict.t;
  outreach_strategy : option Outreach.t }.

(** [res.data] of /generate_email. *)
Record EmailReply := { email_body : jsstring; subject_line : jsstring }.

Record Response (D : Type) := { data : D }.
Arguments data {D} _.

(** The error axios throws: [err.response?.data?.detail]. *)
Record ErrorBody := { detail : option jsstring }.
Record AxiosError := { response : option (Response (option ErrorBody)) }.

(** What a handler's [try] block can throw: the error of a failed request,
    or the [TypeError] of [for (const x of v)] on a [v] that cannot be
    iterated. *)
Inductive Thrown :=
| AxiosFailure (e : AxiosError)
| TypeError.

Record Request := { url : jsstring; body : list (jsstring * jsstring) }.

(** The back end: the answer to the n-th request (n counts the requests
    posted before it). *)
Record Net := {
  analysis_backend : nat -> Request -> AxiosError + Response Analysis;
  email_backend : nat -> Request -> AxiosError + Response EmailReply }.

(** ** React state *)

Inductive Mode := campaign | single.

Definition Mode_eqb (a b : Mode) : bool :=
  match a, b with
  | campaign, campaign | single, single => true
  | _, _ => false
  end.

Module Result.
(** [{ ...res.data, mode }] *)
Record t := { data : Analysis; mode : Mode }.
End Result.

Record State := {
  mode : Mode;
  domain : jsstring;
  serviceCategory : jsstring;
  loading : bool;
  result : option Result.t;
  error : option jsstring;
  trace : list jsstring;
  emails : gmap nat jsstring;
  emailLoading : gmap nat bool }.

(** The [useState] initial values. *)
Definition initial_state : State := {|
  mode := campaign;
  domain := [];
  serviceCategory := js "Application Development";
  loading := false;
  result := None;
  error := None;
  trace := [];
  emails := ∅;
  emailLoading := ∅ |}.

Definition upd_mode (f : Mode -> Mode) (s : State) : State :=
  {| mode := f (mode s); domain := domain s; serviceCategory := serviceCategory s;
     loading := loading s; result := result s; error := error s; trace := trace s;
     emails := emails s; emailLoading := emailLoading s |}.

Definition upd_domain (f : jsstring -> jsstring) (s : State) : State :=
  {| mode := mode s; domain := f (domain s); serviceCategory := serviceCategory s;
     loading := loading s; result := result s; error := error s; trace := trace s;
     emails := emails s; emailLoading := emailLoading s |}.

Definition upd_serviceCategory (f : jsstring -> jsstring) (s : State) : State :=
  {| mode := mode s; domain := domain s; serviceCategory := f (serviceCategory s);
     loading := loading s; result := result s; error := error s; trace := trace s;
     emails := emails s; emailLoading := emailLoading s |}.

Definition upd_loading (f : bool -> bool) (s : State) : State :=
  {| mode := mode s; domain := domain s; serviceCategory := serviceCategory s;
     loading := f (loading s); result := result s; error := error s; trace := trace s;
     emails := emails s; emailLoading := emailLoading s |}.

Definition upd_result (f : option Result.t -> option Result.t) (s : State) : State :=
  {| mode := mode s; domain := domain s; serviceCategory := serviceCategory s;
     loading := loading s; result := f (result s); error := error s; trace := trace s;
     emails := emails s; emailLoading := emailLoading s |}.

Definition upd_error (f : option jsstring -> option jsstring) (s : State) : State :=
  {| mode := mode s; domain := domain s; serviceCategory := serviceCategory s;
     loading := loading s; result := result s; error := f (error s); trace := trace s;
     emails := emails s; emailLoading := emailLoading s |}.

Definition upd_trace (f : list jsstring -> list jsstring) (s : State) : State :=
  {| mode := mode s; domain := domain s; serviceCategory := serviceCategory s;
     loading := loading s; result := result s; error := error s; trace := f (trace s);
     emails := emails s; emailLoading := emailLoading s |}.

Definition upd_emails (f : gmap nat jsstring -> gmap nat jsstring) (s : State) : State :=
  {| mode := mode s; domain := domain s; serviceCategory := serviceCategory s;
     loading := loading s; result := result s; error := error s; trace := trace s;
     emails := f (emails s); emailLoading := emailLoading s |}.

Definition upd_emailLoading (f : gmap nat bool -> gmap nat bool) (s : State) : State :=
  {| mode := mode s; domain := domain s; serviceCategory := serviceCategory s;
     loading := loading s; result := result s; error := error s; trace := trace s;
     emails := emails s; emailLoading := f (emailLoading s) |}.

(** ** Effects and the handler monad *)

Inductive Effect :=
| Posted (r : Request)          (* axios.post *)
| Slept (ms : nat)              (* await new Promise(r => setTimeout(r, ms)) *)
| Alerted (msg : jsstring)      (* alert *)
| ConsoleError                  (* console.error *)
| Clipboard (text : jsstring).  (* navigator.clipboard.writeText *)

Record World := { ui : State; log : list Effect }.

Definition M (A : Type) : Type := World -> (Thrown + A) * World.

Definition ret {A} (a : A) : M A := fun w => (inr a, w).

Definition bind {A B} (m : M A) (k : A -> M B) : M B :=
  fun w => match m w with
           | (inl e, w') => (inl e, w')
           | (inr a, w') => k a w'
           end.

Declare Scope handler_scope.
Delimit Scope handler_scope with M.
Bind Scope handler_scope with M.

Notation "'let*' x := m 'in' k" := (bind m (fun x => k))
  (at level 10, x name, m at level 100, k at level 200) : handler_scope.
Notation "m ;; k" := (bind m (fun _ => k))
  (at level 100, k at level 200, right associativity) : handler_scope.

Definition throw {A} (e : Thrown) : M A := fun w => (inl e, w).

(** [try { body } catch (err) { handler err }] *)
Definition try_catch {A} (body : M A) (handler : Thrown -> M A) : M A :=
  fun w => match body w with
           | (inl e, w') => handler e w'
           | (inr a, w') => (inr a, w')
           end.

(** [try { body } finally { fin }]: [fin] always runs; what [body] returned
    or threw is kept unless [fin] itself throws. *)
Definition try_finally {A} (body : M A) (fin : M unit) : M A :=
  fun w => match body w with
           | (r, w') => match fin w' with
                        | (inl e, w'') => (inl e, w'')
                        | (inr _, w'') => (r, w'')
                        end
           end.

(** [for (const x of l) { body x }] *)
Fixpoint for_of {X} (l : list X) (body : X -> M unit) : M unit :=
  match l with
  | [] => ret tt
  | x :: l' => body x ;; for_of l' body
  end.

(** [for (const x of v) { body x }] where [v] may be missing: iterating
    [undefined] throws a [TypeError]. *)
Definition for_of_field {X} (v : option (list X)) (body : X -> M unit) : M unit :=
  match v with
  | Some l => for_of l body
  | None => throw TypeError
  end.

Definition set_state (f : State -> State) : M unit :=
  fun w => (inr tt, {| ui := f (ui w); log := log w |}).

Definition effect (e : Effect) : M unit :=
  fun w => (inr tt, {| ui := ui w; log := log w ++ [e] |}).

Definition posted (l : list Effect) : list Request :=
  omap (fun e => match e with Posted r => Some r | _ => None end) l.

Definition axios_post {D} (backend : nat -> Request -> AxiosError + Response D)
    (u : jsstring) (b : list (jsstring * jsstring)) : M (Response D) :=
  fun w =>
    let r := {| url := u; body := b |} in
    (match backend (length (posted (log w))) r with
     | inl e => inl (AxiosFailure e)
     | inr res => inr res
     end,
     {| ui := ui w; log := log w ++ [Posted r] |}).

Definition setMode (m : Mode) : M unit := set_state (upd_mode (fun _ => m)).
Definition setDomain (d : jsstring) : M unit := set_state (upd_domain (fun _ => d)).
Definition setServiceCategory (c : jsstring) : M unit :=
  set_state (upd_serviceCategory (fun _ => c)).
Definition setLoading (b : bool) : M unit := set_state (upd_loading (fun _ => b)).
Definition setResult (r : option Result.t) : M unit := set_state (upd_result (fun _ => r)).
Definition setError (e : option jsstring) : M unit := set_state (upd_error (fun _ => e)).
Definition setTrace (f : list jsstring -> list jsstring) : M unit := set_state (upd_trace f).
Definition setEmails (f : gmap nat jsstring -> gmap nat jsstring) : M unit :=
  set_state (upd_emails f).
Definition setEmailLoading (f : gmap nat bool -> gmap nat bool) : M unit :=
  set_state (upd_emailLoading f).

(** ** The handlers *)

Definition validation_message : jsstring :=
  js "Please enter a valid domain (e.g., example.com)".

Definition initial_trace_line : jsstring :=
  js "Initializing autonomous intelligence engine...".

Definition submit_failure_message : jsstring :=
  js "Failed to execute request. Is the backend running?".

Definition email_failure_alert : jsstring :=
  js "Failed to generate email. Is the backend running?".

(** The guard of [handleSubmit]: [mode === 'single' && !domain.trim()]. *)
Definition rejects_input (s : State) : bool :=
  Mode_eqb (mode s) single && negb (truthy (trim (domain s))).

(** [err.response?.data?.detail] of an axios error. *)
Definition error_detail (err : AxiosError) : option jsstring :=
  r ← response err; d ← data r; detail d.

(** [err.response?.data?.detail] of whatever was caught: a [TypeError] has no
    [response]. *)
Definition thrown_detail (err : Thrown) : option jsstring :=
  match err with
  | AxiosFailure e => error_detail e
  | TypeError => None
  end.

(** [handleSubmit], created by the render of state [s].
    [e.preventDefault()] touches neither the state nor the network. *)
Definition handleSubmit (net : Net) (s : State) : M unit :=
  (if rejects_input s then
     setError (Some validation_message)
   else
     setLoading true ;;
     setError None ;;
     setResult None ;;
     setTrace (fun _ => [initial_trace_line]) ;;
     try_finally
       (try_catch
          (let* res :=
             (if Mode_eqb (mode s) campaign then
                axios_post (analysis_backend net) (API_BASE_URL ++ js "/analyze")
                  [(js "service_category", serviceCategory s)]
              else
                axios_post (analysis_backend net) (API_BASE_URL ++ js "/deep_analyze")
                  [(js "domain", domain s);
                   (js "service_category", serviceCategory s)]) in
           for_of_field (agent_trace (data res))
             (fun step => setTrace (fun prev => prev ++ [step]) ;; effect (Slept 600)) ;;
           setResult (Some {| Result.data := data res; Result.mode := mode s |}))
          (fun err =>
             effect ConsoleError ;;
             setError (Some (or_else (thrown_detail err) submit_failure_message))))
       (setLoading false))%M.

(** [handleGenerateEmail(lead, index)], created by the render of state [s]. *)
Definition handleGenerateEmail (net : Net) (s : State)
    (lead : Lead.t) (index : nat) : M unit :=
  (setEmailLoading (fun prev => <[index := true]> prev) ;;
   try_finally
     (try_catch
        (let* res :=
           axios_post (email_backend net) (API_BASE_URL ++ js "/generate_email")
             [(js "company_name", Lead.name lead);
              (js "domain", Lead.domain lead);
              (js "why_we_help", Lead.why_we_help lead);
              (js "service_category", serviceCategory s)] in
         setEmails (fun prev => <[index := email_body (data res)]> prev))
        (fun err =>
           effect ConsoleError ;;
           effect (Alerted email_failure_alert)))
     (setEmailLoading (fun prev => <[index := false]> prev)))%M.

Definition copyToClipboard (text : jsstring) : M unit :=
  (effect (Clipboard text) ;; effect (Alerted (js "Copied to clipboard!")))%M.

(** Running a handler from a given world. *)
Definition run (h : M unit) (w : World) : World := snd (h w).

Definition world_of (s : State) : World := {| ui := s; log := [] |}.

(** ** Rendering of the results column *)

Inductive Color := green | yellow | red.
Inductive Icon := CheckCircle2 | XCircle.

(** One lead card of [renderCampaignResults]. *)
Record LeadCard := {
  card_key : nat;
  card_lead : Lead.t;
  draft_disabled : bool;          (* disabled={emailLoading[idx]} *)
  draft_spinner : bool;           (* Loader2 instead of Mail *)
  draft_label : jsstring;         (* "Regenerate Email" or "Draft Email" *)
  drafted_email : option jsstring (* the panel under emails[idx] && ... *) }.

(** The verdict banner of [renderSingleDomainResults]. *)
Record VerdictBanner := {
  border : Color;                 (* border-l-green-500 or border-l-red-500 *)
  icon : Icon;
  shown_recommendation : option jsstring;
  shown_justification : option jsstring;
  score_color : Color;            (* text-green-400, text-yellow-400, text-red-400 *)
  shown_score : option Z;
  shown_size_flag : option jsstring }.

Record DeepReport := {
  report_timestamp : jsstring;
  banner : VerdictBanner;
  dossier_panel : Dossier.t;
  tech_stack_tags : option (list jsstring);
  why_now_text : option jsstring;
  pain_point_items : list jsstring;
  none_identified : bool;
  service_match_text : option jsstring;
  target_role_text : option jsstring;
  subject_line_row : option jsstring;
  custom_pitch_text : option jsstring }.

Inductive ResultsView :=
| AwaitingAnalysis                                   (* !result *)
| NoLeadsNotice                                      (* "No valid SMB leads found ..." *)
| LeadList (found : nat) (cards : list LeadCard)
| Report (r : DeepReport)
| Null.                                              (* return null *)

(** Truthiness of [emailLoading[idx]] and of [emails[idx]]. *)
Definition flag_at (m : gmap nat bool) (idx : nat) : bool :=
  match m !! idx with Some b => b | None => false end.

Definition email_at (m : gmap nat jsstring) (idx : nat) : option jsstring :=
  match m !! idx with
  | Some e => if truthy e then Some e else None
  | None => None
  end.

Definition renderLeadCard (s : State) (idx : nat) (lead : Lead.t) : LeadCard := {|
  card_key := idx;
  card_lead := lead;
  draft_disabled := flag_at (emailLoading s) idx;
  draft_spinner := flag_at (emailLoading s) idx;
  draft_label :=
    match email_at (emails s) idx with
    | Some _ => js "Regenerate Email"
    | None => js "Draft Email"
    end;
  drafted_email := email_at (emails s) idx |}.

(** [!result.leads || result.leads.length === 0] *)
Definition no_leads (r : Result.t) : bool :=
  match leads (Result.data r) with
  | None => true
  | Some l => Nat.eqb (length l) 0
  end.

Definition renderCampaignResults (s : State) (r : Result.t) : ResultsView :=
  if no_leads r then NoLeadsNotice
  else
    let l := default [] (leads (Result.data r)) in
    LeadList (length l) (imap (renderLeadCard s) l).

(** [x >= n] where [x] is a number or [undefined]. *)
Definition js_ge (x : option Z) (n : Z) : bool :=
  match x with Some z => n <=? z | None => false end.

(** [verdict?.recommendation === "YES"] *)
Definition isYes (v : option Verdict.t) : bool :=
  match v ≫= Verdict.recommendation with
  | Some r => jsstring_eqb r (js "YES")
  | None => false
  end.

Definition scoreColor (v : option Verdict.t) : Color :=
  if js_ge (v ≫= Verdict.score) 60 then green
  else if js_ge (v ≫= Verdict.score) 35 then yellow
  else red.

Definition renderSingleDomainResults (r : Result.t) : ResultsView :=
  let a := Result.data r in
  match company_dossier a with
  | None => Null
  | Some d =>
    let v := verdict a in
    let pains := strategic_analysis a ≫= Strategic.pain_points in
    let subject := outreach_strategy a ≫= Outreach.subject_line in
    Report {|
      report_timestamp := Dossier.analysis_timestamp d;
      banner := {|
        border := if isYes v then green else red;
        icon := if isYes v then CheckCircle2 else XCircle;
        shown_recommendation := v ≫= Verdict.recommendation;
        shown_justification := v ≫= Verdict.justification;
        score_color := scoreColor v;
        shown_score := v ≫= Verdict.score;
        shown_size_flag := v ≫= Verdict.size_flag |};
      dossier_panel := d;
      tech_stack_tags :=
        match Dossier.estimated_tech_stack d with
        | Some (t :: ts) => Some (t :: ts)
        | _ => None
        end;
      why_now_text := strategic_analysis a ≫= Strategic.why_now;
      pain_point_items := default [] pains;
      none_identified :=
        match pains with Some (_ :: _) => false | _ => true end;
      service_match_text := strategic_analysis a ≫= Strategic.datavex_service_match;
      target_role_text := outreach_strategy a ≫= Outreach.target_role;
      subject_line_row :=
        match subject with
        | Some sl => if truthy sl && negb (jsstring_eqb sl (js "N/A")) then Some sl else None
        | None => None
        end;
      custom_pitch_text := outreach_strategy a ≫= Outreach.custom_pitch |}
  end.

(** The results column of the page. *)
Definition render_results (s : State) : ResultsView :=
  match result s with
  | None => AwaitingAnalysis
  | Some r =>
    if Mode_eqb (Result.mode r) campaign then renderCampaignResults s r
    else renderSingleDomainResults r
  end.

Definition lead_cards (v : ResultsView) : list LeadCard :=
  match v with LeadList _ cards => cards | _ => [] end.

(** ** User events *)

Inductive Event :=
| ClickFindLeads                      (* onClick={() => setMode('campaign')} *)
| ClickDeepAnalyze                    (* onClick={() => setMode('single')} *)
| ChangeDomain (value : jsstring)     (* the domain input, shown in single mode *)
| ChangeCategory (option_index : nat) (* the select, shown in campaign mode *)
| SubmitForm                          (* the submit button of the form *)
| ClickDraftEmail (idx : nat)         (* "Draft Email" / "Regenerate Email" of card idx *)
| ClickCopyStrategy (idx : nat)       (* "Copy strategy" of card idx *)
| ClickCopyEmail (idx : nat)          (* "Copy Email" of card idx *)
| ClickCopyPitch.                     (* "Copy" of the pitch in the deep report *)

(** The lead shown on card [idx], when the page shows lead cards. *)
Definition shown_lead (s : State) (idx : nat) : option Lead.t :=
  match result s with
  | Some r =>
    if Mode_eqb (Result.mode r) campaign && negb (no_leads r)
    then default [] (leads (Result.data r)) !! idx
    else None
  | None => None
  end.

(** What the page does on an event.  A control that is not rendered or is
    disabled raises no event; the select offers [SERVICE_CATEGORIES] as its
    options, so [e.target.value] is one of them; the browser does not submit
    the form while the [required] domain input is empty. *)
Definition dispatch (net : Net) (ev : Event) (w : World) : World :=
  let s := ui w in
  match ev with
  | ClickFindLeads => run (setMode campaign) w
  | ClickDeepAnalyze => run (setMode single) w
  | ChangeDomain v =>
    if Mode_eqb (mode s) single && negb (loading s) then run (setDomain v) w else w
  | ChangeCategory i =>
    if Mode_eqb (mode s) campaign && negb (loading s) then
      match SERVICE_CATEGORIES !! i with
      | Some c => run (setServiceCategory c) w
      | None => w
      end
    else w
  | SubmitForm =>
    if loading s || (Mode_eqb (mode s) single && negb (truthy (domain s))) then w
    else run (handleSubmit net s) w
  | ClickDraftEmail idx =>
    match shown_lead s idx with
    | Some lead =>
      if flag_at (emailLoading s) idx then w
      else run (handleGenerateEmail net s lead idx) w
    | None => w
    end
  | ClickCopyStrategy idx =>
    match shown_lead s idx with
    | Some lead => run (copyToClipboard (Lead.why_we_help lead)) w
    | None => w
    end
  | ClickCopyEmail idx =>
    match shown_lead s idx, email_at (emails s) idx with
    | Some _, Some e => run (copyToClipboard e) w
    | _, _ => w
    end
  | ClickCopyPitch =>
    match render_results s with
    | Report rep =>
      (* [writeText(undefined)] writes the text "undefined" *)
      run (copyToClipboard (default (js "undefined") (custom_pitch_text rep))) w
    | _ => w
    end
  end.

Definition run_events (net : Net) (evs : list Event) (w : World) : World :=
  fold_left (fun w ev => dispatch net ev w) evs w.

(** The request [handleSubmit] posts from state [s]. *)
Definition submit_request (s : State) : Request :=
  if Mode_eqb (mode s) campaign then
    {| url := API_BASE_URL ++ js "/analyze";
       body := [(js "service_category", serviceCategory s)] |}
  else
    {| url := API_BASE_URL ++ js "/deep_analyze";
       body := [(js "domain", domain s); (js "service_category", serviceCategory s)] |}.

(** The request [handleGenerateEmail] posts. *)
Definition email_request (s : State) (lead : Lead.t) : Request :=
  {| url := API_BASE_URL ++ js "/generate_email";
     body := [(js "company_name", Lead.name lead);
              (js "domain", Lead.domain lead);
              (js "why_we_help", Lead.why_we_help lead);
              (js "service_category", serviceCategory s)] |}.

End App.

(** * The campaign-only front end

    [frontend/src/App.jsx]: the page before the single-domain mode was
    added.  It has no [mode] and no [domain]; its [result] is [res.data] as
    received.  The data, the back end and the effects are those of [App];
    the handler monad is the same construction over this page's state. *)

Module CampaignApp.
Import App.

Record State := {
  serviceCategory : jsstring;
  loading : bool;
  result : option Analysis;
  error : option jsstring;
  trace : list jsstring;
  emails : gmap nat jsstring;
  emailLoading : gmap nat bool }.

(** The [useState] initial values. *)
Definition initial_state : State := {|
  serviceCategory := js "Application Development";
  loading := false;
  result := None;
  error := None;
  trace := [];
  emails := ∅;
  emailLoading := ∅ |}.

Definition upd_serviceCategory (f : jsstring -> jsstring) (s : State) : State :=
  {| serviceCategory := f (serviceCategory s); loading := loading s;
     result := result s; error := error s; trace := trace s;
     emails := emails s; emailLoading := emailLoading s |}.

Definition upd_loading (f : bool -> bool) (s : State) : State :=
  {| serviceCategory := serviceCategory s; loading := f (loading s);
     result := result s; error := error s; trace := trace s;
     emails := emails s; emailLoading := emailLoading s |}.

Definition upd_result (f : option Analysis -> option Analysis) (s : State) : State :=
  {| serviceCategory := serviceCategory s; loading := loading s;
     result := f (result s); error := error s; trace := trace s;
     emails := emails s; emailLoading := emailLoading s |}.

Definition upd_error (f : option jsstring -> option jsstring) (s : State) : State :=
  {| serviceCategory := serviceCategory s; loading := loading s;
     result := result s; error := f (error s); trace := trace s;
     emails := emails s; emailLoading := emailLoading s |}.

Definition upd_trace (f : list jsstring -> list jsstring) (s : State) : State :=
  {| serviceCategory := serviceCategory s; loading := loading s;
     result := result s; error := error s; trace := f (trace s);
     emails := emails s; emailLoading := emailLoading s |}.

Definition upd_emails (f : gmap nat jsstring -> gmap nat jsstring) (s : State) : State :=
  {| serviceCategory := serviceCategory s; loading := loading s;
     result := result s; error := error s; trace := trace s;
     emails := f (emails s); emailLoading := emailLoading s |}.

Definition upd_emailLoading (f : gmap nat bool -> gmap nat bool) (s : State) : State :=
  {| serviceCategory := serviceCategory s; loading := loading s;
     result := result s; error := error s; trace := trace s;
     emails := emails s; emailLoading := f (emailLoading s) |}.

Record World := { ui : State; log : list Effect }.

Definition M (A : Type) : Type := World -> (Thrown + A) * World.

Definition ret {A} (a : A) : M A := fun w => (inr a, w).

Definition bind {A B} (m : M A) (k : A -> M B) : M B :=
  fun w => match m w with
           | (inl e, w') => (inl e, w')
           | (inr a, w') => k a w'
           end.

Declare Scope campaign_scope.
Delimit Scope campaign_scope with C.
Bind Scope campaign_scope with M.

Notation "'let*' x := m 'in' k" := (bind m (fun x => k))
  (at level 10, x name, m at level 100, k at level 200) : campaign_scope.
Notation "m ;; k" := (bind m (fun _ => k))
  (at level 100, k at level 200, right associativity) : campaign_scope.

Definition try_catch {A} (body : M A) (handler : Thrown -> M A) : M A :=
  fun w => match body w with
           | (inl e, w') => handler e w'
           | (inr a, w') => (inr a, w')
           end.

Definition try_finally {A} (body : M A) (fin : M unit) : M A :=
  fun w => match body w with
           | (r, w') => match fin w' with
                        | (inl e, w'') => (inl e, w'')
                        | (inr _, w'') => (r, w'')
                        end
           end.

Fixpoint for_of {X} (l : list X) (body : X -> M unit) : M unit :=
  match l with
  | [] => ret tt
  | x :: l' => bind (body x) (fun _ => for_of l' body)
  end.

Definition for_of_field {X} (v : option (list X)) (body : X -> M unit) : M unit :=
  match v with
  | Some l => for_of l body
  | None => fun w => (inl TypeError, w)
  end.

Definition set_state (f : State -> State) : M unit :=
  fun w => (inr tt, {| ui := f (ui w); log := log w |}).

Definition effect (e : Effect) : M unit :=
  fun w => (inr tt, {| ui := ui w; log := log w ++ [e] |}).

Definition axios_post {D} (backend : nat -> Request -> AxiosError + Response D)
    (u : jsstring) (b : list (jsstring * jsstring)) : M (Response D) :=
  fun w =>
    let r := {| url := u; body := b |} in
    (match backend (length (posted (log w))) r with
     | inl e => inl (AxiosFailure e)
     | inr res => inr res
     end,
     {| ui := ui w; log := log w ++ [Posted r] |}).

Definition setServiceCategory (c : jsstring) : M unit :=
  set_state (upd_serviceCategory (fun _ => c)).
Definition setLoading (b : bool) : M unit := set_state (upd_loading (fun _ => b)).
Definition setResult (r : option Analysis) : M unit := set_state (upd_result (fun _ => r)).
Definition setError (e : option jsstring) : M unit := set_state (upd_error (fun _ => e)).
Definition setTrace (f : list jsstring -> list jsstring) : M unit := set_state (upd_trace f).
Definition setEmails (f : gmap nat jsstring -> gmap nat jsstring) : M unit :=
  set_state (upd_emails f).
Definition setEmailLoading (f : gmap nat bool -> gmap nat bool) : M unit :=
  set_state (upd_emailLoading f).

Definition submit_failure_message : jsstring :=
  js "Failed to analyze category. Is the backend running?".

(** [handleSubmit], created by the render of state [s]: no guard, one
    request to /analyze. *)
Definition handleSubmit (net : Net) (s : State) : M unit :=
  (setLoading true ;;
   setError None ;;
   setResult None ;;
   setTrace (fun _ => [initial_trace_line]) ;;
   try_finally
     (try_catch
        (let* res :=
           axios_post (analysis_backend net) (API_BASE_URL ++ js "/analyze")
             [(js "service_category", serviceCategory s)] in
         for_of_field (agent_trace (data res))
           (fun step => setTrace (fun prev => prev ++ [step]) ;; effect (Slept 800)) ;;
         setResult (Some (data res)))
        (fun err =>
           effect ConsoleError ;;
           setError (Some (or_else (thrown_detail err) submit_failure_message))))
     (setLoading false))%C.

(** [handleGenerateEmail(lead, index)], created by the render of state [s]. *)
Definition handleGenerateEmail (net : Net) (s : State)
    (lead : Lead.t) (index : nat) : M unit :=
  (setEmailLoading (fun prev => <[index := true]> prev) ;;
   try_finally
     (try_catch
        (let* res :=
           axios_post (email_backend net) (API_BASE_URL ++ js "/generate_email")
             [(js "company_name", Lead.name lead);
              (js "domain", Lead.domain lead);
              (js "why_we_help", Lead.why_we_help lead);
              (js "service_category", serviceCategory s)] in
         setEmails (fun prev => <[index := email_body (data res)]> prev))
        (fun err =>
           effect ConsoleError ;;
           effect (Alerted email_failure_alert)))
     (setEmailLoading (fun prev => <[index := false]> prev)))%C.

Definition copyToClipboard (text : jsstring) : M unit :=
  (effect (Clipboard text) ;; effect (Alerted (js "Copied to clipboard!")))%C.

Definition run (h : M unit) (w : World) : World := snd (h w).

Definition renderLeadCard (s : State) (idx : nat) (lead : Lead.t) : LeadCard := {|
  card_key := idx;
  card_lead := lead;
  draft_disabled := flag_at (emailLoading s) idx;
  draft_spinner := flag_at (emailLoading s) idx;
  draft_label :=
    match email_at (emails s) idx with
    | Some _ => js "Regenerate Email"
    | None => js "Draft Email"
    end;
  drafted_email := email_at (emails s) idx |}.

(** The results column:
    [!result ? ... : result.leads && result.leads.length > 0 ? ... : ...]. *)
Definition render_results (s : State) : ResultsView :=
  match result s with
  | None => AwaitingAnalysis
  | Some r =>
    match leads r with
    | Some (x :: xs) => LeadList (length (x :: xs)) (imap (renderLeadCard s) (x :: xs))
    | _ => NoLeadsNotice
    end
  end.


(** ** User events of the campaign-only page *)

Inductive Event :=
| ChangeCategory (option_index : nat) (* the select *)
| SubmitForm                          (* the submit button of the form *)
| ClickDraftEmail (idx : nat)         (* "Draft Email" / "Regenerate Email" of card idx *)
| ClickCopyStrategy (idx : nat)       (* "Copy strategy" of card idx *)
| ClickCopyEmail (idx : nat).         (* "Copy Email" of card idx *)

(** The lead shown on card [idx], when the page shows lead cards. *)
Definition shown_lead (s : State) (idx : nat) : option Lead.t :=
  match result s with
  | Some r =>
    match leads r with
    | Some (x :: xs) => (x :: xs) !! idx
    | _ => None
    end
  | None => None
  end.

(** What the page does on an event.  The select and the submit button are
    disabled while [loading]; the draft button of a card is disabled while
    its spinner is on. *)
Definition dispatch (net : Net) (ev : Event) (w : World) : World :=
  let s := ui w in
  match ev with
  | ChangeCategory i =>
    if negb (loading s) then
      match SERVICE_CATEGORIES !! i with
      | Some c => run (setServiceCategory c) w
      | None => w
      end
    else w
  | SubmitForm =>
    if loading s then w else run (handleSubmit net s) w
  | ClickDraftEmail idx =>
    match shown_lead s idx with
    | Some lead =>
      if flag_at (emailLoading s) idx then w
      else run (handleGenerateEmail net s lead idx) w
    | None => w
    end
  | ClickCopyStrategy idx =>
    match shown_lead s idx with
    | Some lead => run (copyToClipboard (Lead.why_we_help lead)) w
    | None => w
    end
  | ClickCopyEmail idx =>
    match shown_lead s idx, email_at (emails s) idx with
    | Some _, Some e => run (copyToClipboard e) w
    | _, _ => w
    end
  end.

Definition run_events (net : Net) (evs : list Event) (w : World) : World :=
  fold_left (fun w ev => dispatch net ev w) evs w.



End CampaignApp.

(** * The lead pipeline

    The Python back end ([fast_app.py], [agents.py]) is missing from the
    sources; its campaign pipeline is modelled from the design document.
    The query templates, the search provider, the URL parser and the
    language model are parameters of the model. *)

Module Pipeline.

(** Modelled from the spec: a hit of the search provider, "ordered sequence
    of { url, title, snippet }". *)
Record Hit := { hit_url : string; hit_title : string; hit_snippet : string }.

(** Modelled from the spec: Candidate, "{ name, domain (normalized), snippet }",
    the output of ResultNormalizer. *)
Record Candidate := { name : string; domain : string; snippet : string }.

(** Modelled from the spec: Lead, "{ name, domain, why_we_help }", the output
    of LeadSynthesizer in a campaign run. *)
Record Lead := { lead_name : string; lead_domain : string; why_we_help : string }.

(** Modelled from the spec: BlocklistEntry, "exact domain string or
    regex/substring pattern representing a known large enterprise"; a
    pattern is given by its matcher on a domain. *)
Inductive BlocklistEntry :=
| ExactDomain (d : string)
| Pattern (matches : string -> bool).

(** Modelled from the spec: the error kinds a campaign run surfaces,
    InvalidInput and ExternalProviderError (a schema violation degrades to
    an empty result in batch mode). *)
Inductive ErrorKind := InvalidInput | ExternalProviderError.

(** Modelled from the spec: what one call of the language model comes to
    once the tolerant parser has run: a document of the Lead-list schema, a
    malformed answer, or a failed or timed-out call. *)
Inductive LlmOutcome :=
| Parsed (leads : list Lead)
| Malformed
| CallFailed.

(** Modelled from the spec: the "campaign analyze" response,
    "{ leads: [...], agent_trace: [...] }". *)
Record CampaignResponse := { leads : list Lead; agent_trace : list string }.

(** Modelled from the spec: the FAILED outcome, "the accumulated trace plus
    an error description". *)
Record Failure := { kind : ErrorKind; failure_trace : list string }.

(** Modelled from the spec: the cap on hits, "a fixed top-N (20)". *)
Definition TOP_N : nat := 20.

(** Modelled from the spec: the cap on candidates sent to the model, "a
    small top-K, e.g. 5". *)
Definition TOP_K : nat := 5.

Section Run.

Variable blocklist : list BlocklistEntry.
(** The optional heuristic on the snippet ("NYSE:", "Fortune 500", ...). *)
Variable size_signal : option (string -> bool).
(** QueryBuilder: [None] for an unknown category. *)
Variable build_query : string -> option string.
(** The search provider, called with the query and the cap; [None] when
    the call fails or times out. *)
Variable search : string -> nat -> option (list Hit).
(** Normalisation of one hit; [None] for a malformed URL. *)
Variable normalize_hit : Hit -> option Candidate.
(** The language model, called with the candidates, the category and
    whether the corrective instruction is appended. *)
Variable llm : list Candidate -> string -> bool -> LlmOutcome.

(** Modelled from the spec: rule 1 of EnterpriseGuard, "exact domain match
    against the static blocklist". *)
Definition exact_match (c : Candidate) : bool :=
  existsb (fun e => match e with
                    | ExactDomain d => bool_decide (d = domain c)
                    | Pattern _ => false
                    end) blocklist.

(** Modelled from the spec: rule 2 of EnterpriseGuard, "regex/substring
    match against known enterprise name fragments". *)
Definition pattern_match (c : Candidate) : bool :=
  existsb (fun e => match e with
                    | ExactDomain _ => false
                    | Pattern p => p (domain c)
                    end) blocklist.

(** Modelled from the spec: rule 3 of EnterpriseGuard, the optional
    heuristic on the snippet text. *)
Definition heuristic_match (c : Candidate) : bool :=
  match size_signal with
  | Some signal => signal (snippet c)
  | None => false
  end.

(** Modelled from the spec: the matching policy of EnterpriseGuard (the
    Size Guard of the Python back end, whose code is missing), "evaluated in
    this order, short-circuiting on first match": exact domain, then
    pattern, then the optional snippet heuristic. *)
Definition is_enterprise (c : Candidate) : bool :=
  exact_match c || pattern_match c || heuristic_match c.

(** Modelled from the spec: EnterpriseGuard (the Size Guard of the Python
    back end, whose code is missing), "filtered ordered sequence (order
    preserved), with rejects discarded"; a candidate is passed unchanged or
    dropped. *)
Definition EnterpriseGuard (cands : list Candidate) : list Candidate :=
  List.filter (fun c => negb (is_enterprise c)) cands.

(** Modelled from the spec: the deduplication of ResultNormalizer, "drop
    the hit if the resulting domain has already been seen in this run
    (first-wins dedup, order-preserving)". *)
Fixpoint dedup (seen : list string) (cands : list Candidate) : list Candidate :=
  match cands with
  | [] => []
  | c :: rest =>
    if bool_decide (domain c ∈ seen) then dedup seen rest
    else c :: dedup (domain c :: seen) rest
  end.

(** Modelled from the spec: ResultNormalizer (back-end code, missing), hits
    "capped at a fixed top-N (20)", malformed URLs skipped, duplicates of a
    domain dropped. *)
Definition ResultNormalizer (hits : list Hit) : list Candidate :=
  dedup [] (omap normalize_hit (firstn TOP_N hits)).

(** Modelled from the spec: the anti-hallucination check of
    LeadSynthesizer: a lead is kept only if its domain is the domain of a
    candidate that was sent. *)
Definition known_domain (cands : list Candidate) (l : Lead) : bool :=
  bool_decide (lead_domain l ∈ List.map domain cands).

(** Modelled from the spec: LeadSynthesizer in campaign mode (the Lead
    Analyst of the Python back end, whose code is missing): one call, one
    corrective retry on a malformed answer, an empty result when the retry
    is malformed too, and "any lead whose domain does not match an expected
    candidate domain is discarded". [None] when the call itself fails. *)
Definition LeadSynthesizer (cands : list Candidate) (category : string)
    : option (list Lead) :=
  match llm cands category false with
  | Parsed ls => Some (List.filter (known_domain cands) ls)
  | CallFailed => None
  | Malformed =>
    match llm cands category true with
    | Parsed ls => Some (List.filter (known_domain cands) ls)
    | Malformed => Some []
    | CallFailed => None
    end
  end.

(** Modelled from the spec: what the orchestrator hands to
    LeadSynthesizer, the guarded candidates capped to the top K; [None]
    when the pipeline stops before the synthesis stage. *)
Definition synthesis_input (category : string) : option (list Candidate) :=
  q ← build_query category;
  hits ← search q TOP_N;
  match EnterpriseGuard (ResultNormalizer hits) with
  | [] => None
  | c :: cs => Some (firstn TOP_K (c :: cs))
  end.

(** Modelled from the spec: PipelineOrchestrator in campaign mode (the
    /analyze endpoint of the Python back end, whose code is missing), INIT,
    SCOUTING, FILTERING, SYNTHESIZING, DONE, with one trace event per
    transition; FAILED with the accumulated trace when an external call
    fails; no synthesis call when no candidate survives. *)
Definition run_campaign (category : string) : Failure + CampaignResponse :=
  match build_query category with
  | None => inl {| kind := InvalidInput; failure_trace := [] |}
  | Some q =>
    let t1 := ["Scouting..."%string] in
    match search q TOP_N with
    | None => inl {| kind := ExternalProviderError; failure_trace := t1 |}
    | Some hits =>
      let t2 := t1 ++ ["Filtering..."%string] in
      match EnterpriseGuard (ResultNormalizer hits) with
      | [] => inr {| leads := []; agent_trace := t2 ++ ["0 leads found"%string] |}
      | c :: cs =>
        let t3 := t2 ++ ["Synthesizing..."%string] in
        match LeadSynthesizer (firstn TOP_K (c :: cs)) category with
        | None => inl {| kind := ExternalProviderError; failure_trace := t3 |}
        | Some ls =>
          inr {| leads := ls;
                 agent_trace :=
                   t3 ++ [(pretty (length ls) ++ " leads found")%string] |}
        end
      end
    end
  end.

End Run.

End Pipeline.

(** * Sample data, used to run the definitions on concrete inputs *)

Module Samples.
Import App.

Definition tiny_lead : Lead.t := {|
  Lead.name := js "Tiny DevOps";
  Lead.domain := js "tinydevops.io";
  Lead.why_we_help := js "Small team migrating to Kubernetes." |}.

Definition acme_lead : Lead.t := {|
  Lead.name := js "Acme Labs";
  Lead.domain := js "acmelabs.dev";
  Lead.why_we_help := js "Hiring their first data engineer." |}.

Definition server_trace : list jsstring :=
  [js "Scouting..."; js "Filtering..."; js "Synthesizing..."].

Definition analysis_with (ls : option (list Lead.t)) : Analysis := {|
  agent_trace := Some server_trace;
  leads := ls;
  company_dossier := None;
  strategic_analysis := None;
  verdict := None;
  outreach_strategy := None |}.

Definition email_reply : EmailReply :=
  {| email_body := js "Hi team, ..."; subject_line := js "Kubernetes help" |}.

(** A back end that answers every analysis request with [a]. *)
Definition backend_answering (a : Analysis) : Net := {|
  analysis_backend := fun _ _ => inr {| data := a |};
  email_backend := fun _ _ => inr {| data := email_reply |} |}.

(** A back end that is not running: axios throws without a response. *)
Definition backend_down : Net := {|
  analysis_backend := fun _ _ => inl {| response := None |};
  email_backend := fun _ _ => inl {| response := None |} |}.

Definition blank_single_state : State :=
  upd_domain (fun _ => js "   ") (upd_mode (fun _ => single) initial_state).

Definition state_with_leads : State :=
  upd_result
    (fun _ => Some {| Result.data := analysis_with (Some [tiny_lead; acme_lead]);
                      Result.mode := campaign |})
    initial_state.

(** The page after a campaign run, switched to single mode, with a blank
    typed into the domain input. *)
Definition blank_single_after_campaign : State :=
  upd_domain (fun _ => js " ") (upd_mode (fun _ => single) state_with_leads).

(** An error of the back end that carries a [detail]. *)
Definition backend_refusing (msg : jsstring) : Net := {|
  analysis_backend := fun _ _ =>
    inl {| response := Some {| data := Some {| detail := Some msg |} |} |};
  email_backend := fun _ _ =>
    inl {| response := Some {| data := Some {| detail := Some msg |} |} |} |}.

Definition acme_dossier : Dossier.t := {|
  Dossier.title := js "Acme Labs";
  Dossier.domain := js "acmelabs.dev";
  Dossier.industry := js "Developer tools";
  Dossier.summary := js "A twelve-person tooling startup.";
  Dossier.estimated_tech_stack := Some [js "React"; js "FastAPI"];
  Dossier.company_stage := js "Seed";
  Dossier.company_size := js "11-50";
  Dossier.analysis_timestamp := js "2026-02-14T10:00:00Z" |}.

Definition deep_result (rec : option jsstring) (sc : option Z) : Result.t := {|
  Result.data := {|
    agent_trace := Some server_trace;
    leads := None;
    company_dossier := Some acme_dossier;
    strategic_analysis := None;
    verdict := Some {| Verdict.recommendation := rec; Verdict.score := sc;
                       Verdict.justification := None; Verdict.size_flag := None |};
    outreach_strategy := None |};
  Result.mode := single |}.

(** An answer with an empty list of leads and no [agent_trace]. *)
Definition analysis_without_trace : Analysis := {|
  agent_trace := None;
  leads := Some [];
  company_dossier := None;
  strategic_analysis := None;
  verdict := None;
  outreach_strategy := None |}.

(** Single mode with a domain typed with spaces around it. *)
Definition padded_single_state : State :=
  upd_domain (fun _ => js " example.com ") (upd_mode (fun _ => single) initial_state).

(** The page with two leads and an email already drafted for the first. *)
Definition state_with_draft : State :=
  upd_emails (fun _ => {[ 0%nat := js "Earlier draft" ]}) state_with_leads.

(** A back end whose email differs from one request to the next. *)
Definition backend_numbering : Net := {|
  analysis_backend := fun _ _ => inr {| data := analysis_with (Some [acme_lead]) |};
  email_backend := fun n _ =>
    inr {| data := {| email_body := if Nat.eqb n 0 then js "first draft" else js "second draft";
                      subject_line := js "Hello" |} |} |}.

(** Scenario A of the design document: the search returns a blocklisted
    [bigcorp.com] next to [tinydevops.io]; the model also makes up a lead
    for a domain it was never given. *)
Module ScenarioA.
Import Pipeline.

Definition blocklist : list BlocklistEntry :=
  [ExactDomain "bigcorp.com"; Pattern (String.prefix "megacorp.")].

Definition hits : list Hit :=
  [ {| hit_url := "bigcorp.com"; hit_title := "BigCorp";
       hit_snippet := "BigCorp (NYSE: BIG) cloud careers" |};
    {| hit_url := "tinydevops.io"; hit_title := "Tiny DevOps";
       hit_snippet := "small team, we need a devops consultant" |};
    {| hit_url := "megacorp.co.uk"; hit_title := "MegaCorp UK";
       hit_snippet := "MegaCorp United Kingdom" |};
    {| hit_url := "tinydevops.io"; hit_title := "Tiny DevOps blog";
       hit_snippet := "our cloud bill" |} ].

Definition build_query (category : string) : option string :=
  Some ("startup looking for " ++ category ++ " consultant -jobs -site:indeed.com")%string.

Definition search (q : string) (cap : nat) : option (list Hit) := Some hits.

Definition normalize_hit (h : Hit) : option Candidate :=
  Some {| name := hit_title h; domain := hit_url h; snippet := hit_snippet h |}.

Definition lead_of (c : Candidate) : Lead :=
  {| lead_name := name c; lead_domain := domain c;
     why_we_help := "They ask for outside help." |}.

Definition llm (cands : list Candidate) (category : string) (corrective : bool)
    : LlmOutcome :=
  Parsed ({| lead_name := "BigCorp"; lead_domain := "bigcorp.com";
             why_we_help := "Large cloud estate." |}
          :: List.map lead_of cands).

Definition response : Failure + CampaignResponse :=
  run_campaign blocklist None build_query search normalize_hit llm "Cloud & DevOps".

Definition expected : CampaignResponse := {|
leads := [ {| lead_name := "Tiny DevOps"; lead_domain := "tinydevops.io";
              why_we_help := "They ask for outside help." |} ];
agent_trace :=
  ["Scouting..."; "Filtering..."; "Synthesizing..."; "1 leads found"]%string |}.
End ScenarioA.

End Samples.

(** * Properties of the front end *)

Import App.

(** ** The definitions on concrete inputs *)

Example trim_inner_space_kept : trim (js "  tiny devops.io  ") = js "tiny devops.io".
Proof. reflexivity. Qed.

Example trim_tabs_and_newlines : trim [9; 10; 13; 32; 160; 8232]%N = [].
Proof. reflexivity. Qed.

Example campaign_submit_posts_category :
  posted (log (run (handleSubmit Samples.backend_down initial_state)
                 (world_of initial_state)))
  = [{| url := js "http://localhost:8000/analyze";
        body := [(js "service_category", js "Application Development")] |}].
Proof. reflexivity. Qed.

Example submit_failure_shows_detail :
  error (ui (run (handleSubmit (Samples.backend_refusing (js "Invalid category"))
                    initial_state)
               (world_of initial_state)))
  = Some (js "Invalid category").
Proof. reflexivity. Qed.

Example submit_failure_default_message :
  error (ui (run (handleSubmit Samples.backend_down initial_state)
               (world_of initial_state)))
  = Some (js "Failed to execute request. Is the backend running?").
Proof. reflexivity. Qed.

Example two_leads_two_cards :
  map card_key (lead_cards (render_results Samples.state_with_leads)) = [0; 1]%nat.
Proof. reflexivity. Qed.

Example lowercase_yes_is_no_style :
  renderSingleDomainResults (Samples.deep_result (Some (js "yes")) (Some 59))
  = Report {|
      report_timestamp := js "2026-02-14T10:00:00Z";
      banner := {| border := red; icon := XCircle;
                   shown_recommendation := Some (js "yes");
                   shown_justification := None;
                   score_color := yellow; shown_score := Some 59;
                   shown_size_flag := None |};
      dossier_panel := Samples.acme_dossier;
      tech_stack_tags := Some [js "React"; js "FastAPI"];
      why_now_text := None; pain_point_items := []; none_identified := true;
      service_match_text := None; target_role_text := None;
      subject_line_row := None; custom_pitch_text := None |}.
Proof. reflexivity. Qed.

(** The guard path of [handleSubmit] returns before the state is reset: a result
    of an earlier run stays on the page next to the validation message. *)
Example rejected_submission_keeps_result :
  let w' := run (handleSubmit Samples.backend_down Samples.blank_single_after_campaign)
                (world_of Samples.blank_single_after_campaign) in
  error (ui w') = Some validation_message /\
  result (ui w') = result Samples.state_with_leads /\
  log w' = [].
Proof. repeat split; reflexivity. Qed.

Lemma trimStart_whitespace (d : jsstring) :
  forallb is_js_whitespace d = true -> trimStart d = [].
Proof.
  induction d as [|c d IH]; simpl; [reflexivity|].
  intros H. apply andb_prop in H as [Hc Hd]. rewrite Hc. auto.
Qed.

Lemma trim_whitespace (d : jsstring) :
  forallb is_js_whitespace d = true -> trim d = [].
Proof.
  intros H. unfold trim, trimEnd. rewrite (trimStart_whitespace d H). reflexivity.
Qed.

Lemma trimStart_nil_inv (d : jsstring) :
  trimStart d = [] -> forallb is_js_whitespace d = true.
Proof.
  induction d as [|c d IH]; simpl; [reflexivity|].
  destruct (is_js_whitespace c); [auto | discriminate].
Qed.

Lemma trimStart_snoc (d : jsstring) (c : N) :
  is_js_whitespace c = false -> trimStart (d ++ [c]) <> [].
Proof.
  intros Hc. induction d as [|x d IH]; simpl.
  - rewrite Hc. discriminate.
  - destruct (is_js_whitespace x); [exact IH | discriminate].
Qed.

Lemma trimStart_head (d : jsstring) :
  match trimStart d with
  | [] => True
  | c :: _ => is_js_whitespace c = false
  end.
Proof.
  induction d as [|x d IH]; simpl; [exact I|].
  destruct (is_js_whitespace x) eqn:E; [exact IH | exact E].
Qed.

Lemma trim_nil_inv (d : jsstring) :
  trim d = [] -> forallb is_js_whitespace d = true.
Proof.
  unfold trim, trimEnd. intros H.
  apply trimStart_nil_inv.
  pose proof (trimStart_head d) as Hh.
  destruct (trimStart d) as [|c t]; [reflexivity|].
  exfalso.
  assert (Hr : trimStart (rev (c :: t)) = []).
  { apply (f_equal (@rev N)) in H. rewrite rev_involutive in H. exact H. }
  (* the last unit of the reversed string is the head [c], not white space *)
  simpl in Hr. exact (trimStart_snoc (rev t) c Hh Hr).
Qed.

(** The guard of [handleSubmit] rejects exactly the single-mode submissions
    whose domain consists of white space only. *)
Lemma rejects_input_iff (s : State) :
  rejects_input s = true <->
  mode s = single /\ forallb is_js_whitespace (domain s) = true.
Proof.
  unfold rejects_input. split.
  - intros H. apply andb_prop in H as [Hm Ht]. split.
    + destruct (mode s); [discriminate | reflexivity].
    + apply trim_nil_inv. destruct (trim (domain s)); [reflexivity | discriminate].
  - intros [Hm Hd]. rewrite Hm, (trim_whitespace _ Hd). reflexivity.
Qed.

Lemma campaign_not_rejected (s : State) :
  mode s = campaign -> rejects_input s = false.
Proof. intros H. unfold rejects_input. rewrite H. reflexivity. Qed.

(** The loop over [res.data.agent_trace]: every step is appended to the
    displayed trace, in order, with one pause after each. *)
Lemma for_of_agent_trace (tr : list jsstring) (w : World) :
  for_of tr (fun step =>
    (setTrace (fun prev => prev ++ [step]) ;; effect (Slept 600))%M) w =
  (inr tt, {| ui := upd_trace (fun prev => prev ++ tr) (ui w);
              log := log w ++ map (fun _ => Slept 600) tr |}).
Proof.
  revert w. induction tr as [|step tr IH]; intros [[m d c lo r e t em el] l].
  - simpl. unfold ret, upd_trace. simpl. rewrite !app_nil_r. reflexivity.
  - simpl. unfold bind at 1. unfold bind at 1. unfold setTrace, set_state, effect.
    simpl. rewrite IH. unfold upd_trace. simpl.
    rewrite <- !app_assoc. reflexivity.
Qed.

(** Case analysis on what the back end answered and, for an answer, on
    whether its [agent_trace] can be iterated. *)
Ltac case_answer :=
  match goal with
  | |- context [analysis_backend ?net ?n ?q] =>
    destruct (analysis_backend net n q) as [?err|?res]
  end;
  [| match goal with
     | |- context [agent_trace (data ?r)] =>
       destruct (agent_trace (data r)) as [?tr|]
     end ].

(** What a submission that passes the guard does, by the answer of the
    back end. *)
Lemma handleSubmit_accepted (net : Net) (s : State) (w : World) :
  rejects_input s = false ->
  run (handleSubmit net s) w =
  match analysis_backend net (length (posted (log w))) (submit_request s) with
  | inr res =>
    match agent_trace (data res) with
    | Some tr =>
      {| ui := {| mode := mode (ui w); domain := domain (ui w);
                  serviceCategory := serviceCategory (ui w);
                  loading := false;
                  result := Some {| Result.data := data res; Result.mode := mode s |};
                  error := None;
                  trace := initial_trace_line :: tr;
                  emails := emails (ui w); emailLoading := emailLoading (ui w) |};
         log := log w ++ Posted (submit_request s)
                  :: map (fun _ => Slept 600) tr |}
    | None =>
      (* the [for...of] throws a [TypeError], which the [catch] handles *)
      {| ui := {| mode := mode (ui w); domain := domain (ui w);
                  serviceCategory := serviceCategory (ui w);
                  loading := false;
                  result := None;
                  error := Some submit_failure_message;
                  trace := [initial_trace_line];
                  emails := emails (ui w); emailLoading := emailLoading (ui w) |};
         log := log w ++ [Posted (submit_request s); ConsoleError] |}
    end
  | inl err =>
    {| ui := {| mode := mode (ui w); domain := domain (ui w);
                serviceCategory := serviceCategory (ui w);
                loading := false;
                result := None;
                error := Some (or_else (error_detail err) submit_failure_message);
                trace := [initial_trace_line];
                emails := emails (ui w); emailLoading := emailLoading (ui w) |};
       log := log w ++ [Posted (submit_request s); ConsoleError] |}
  end.
Proof.
  intros Hok. destruct w as [[m d c lo r e t em el] l].
  unfold run, handleSubmit, submit_request. rewrite Hok.
  unfold bind at 1. unfold bind at 1. unfold bind at 1. unfold bind at 1.
  unfold setLoading, setError, setResult, setTrace at 1. unfold set_state. simpl.
  unfold try_finally, try_catch. unfold bind at 1.
  destruct (Mode_eqb (mode s) campaign); unfold axios_post; simpl;
    match goal with
    | |- context [analysis_backend net ?n ?q] =>
      destruct (analysis_backend net n q) as [err|res]
    end; simpl.
  all: try (rewrite <- app_assoc; reflexivity).
  all: unfold bind at 1; unfold for_of_field;
    destruct (agent_trace (data res)) as [tr|]; simpl.
  all: try (rewrite for_of_agent_trace; simpl; rewrite <- app_assoc; reflexivity).
  all: rewrite <- app_assoc; reflexivity.
Qed.

(** What a rejected submission does. *)
Lemma handleSubmit_rejected (net : Net) (s : State) (w : World) :
  rejects_input s = true ->
  run (handleSubmit net s) w =
  {| ui := upd_error (fun _ => Some validation_message) (ui w); log := log w |}.
Proof.
  intros H. unfold run, handleSubmit. rewrite H. reflexivity.
Qed.

(** What [handleGenerateEmail] does, by the answer of the back end. *)
Lemma handleGenerateEmail_run (net : Net) (s : State) (lead : Lead.t)
    (index : nat) (w : World) :
  run (handleGenerateEmail net s lead index) w =
  match email_backend net (length (posted (log w))) (email_request s lead) with
  | inr res =>
    {| ui := upd_emailLoading (fun prev => <[index := false]> (<[index := true]> prev))
               (upd_emails (fun prev => <[index := email_body (data res)]> prev) (ui w));
       log := log w ++ [Posted (email_request s lead)] |}
  | inl err =>
    {| ui := upd_emailLoading (fun prev => <[index := false]> (<[index := true]> prev))
               (ui w);
       log := log w ++ [Posted (email_request s lead); ConsoleError;
                        Alerted email_failure_alert] |}
  end.
Proof.
  destruct w as [[m d c lo r e t em el] l].
  unfold run, handleGenerateEmail, email_request.
  unfold bind at 1. unfold setEmailLoading at 1. unfold set_state. simpl.
  unfold try_finally, try_catch, axios_post, bind. simpl.
  match goal with
  | |- context [email_backend net ?n ?q] =>
    destruct (email_backend net n q) as [err|res]
  end; simpl.
  - rewrite <- !app_assoc. reflexivity.
  - reflexivity.
Qed.

(** ** The displayed trace *)

(** C2. When the back end answers a submission (campaign or deep analysis)
    with a response, every element of the response's [agent_trace] is appended
    to the displayed trace as it is and in the order of the response: the
    loop turns any displayed trace [prev] into [prev ++ agent_trace], and
    after [handleSubmit] the displayed trace is the opening line followed by
    exactly the [agent_trace] of the response. *)
Theorem submit_appends_agent_trace (net : Net) (s : State) (l : list Effect)
    (res : Response Analysis) (tr : list jsstring) :
  rejects_input s = false ->
  analysis_backend net (length (posted l)) (submit_request s) = inr res ->
  agent_trace (data res) = Some tr ->
  let w' := run (handleSubmit net s) {| ui := s; log := l |} in
  trace (ui w') = [initial_trace_line] ++ tr /\
  (forall w : World,
     trace (ui (snd (for_of_field (agent_trace (data res))
                       (fun step => (setTrace (fun prev => prev ++ [step]) ;;
                                     effect (Slept 600))%M) w)))
     = trace (ui w) ++ tr).
Proof.
  intros Hok Hres Htr w'. split.
  - subst w'. rewrite (handleSubmit_accepted net s _ Hok). simpl.
    rewrite Hres, Htr. reflexivity.
  - intros w. rewrite Htr. unfold for_of_field.
    rewrite for_of_agent_trace. reflexivity.
Qed.

Lemma submit_appends_agent_trace_witness :
  trace (ui (run (handleSubmit (Samples.backend_answering (Samples.analysis_with (Some [])))
                    initial_state)
               (world_of initial_state)))
  = [initial_trace_line] ++ Samples.server_trace.
Proof.
  exact (proj1 (submit_appends_agent_trace
                  (Samples.backend_answering (Samples.analysis_with (Some [])))
                  initial_state [] {| data := Samples.analysis_with (Some []) |}
                  Samples.server_trace eq_refl eq_refl eq_refl)).
Defined.

(** C8. Whenever a submission passes the input guard, the displayed trace is
    reset: after [handleSubmit] its first element is the line "Initializing
    autonomous intelligence engine...", and the events of the server, if any,
    come after it. *)
Theorem submit_resets_trace (net : Net) (s : State) (l : list Effect) :
  rejects_input s = false ->
  trace (ui (run (handleSubmit net s) {| ui := s; log := l |})) =
  js "Initializing autonomous intelligence engine..." ::
  match analysis_backend net (length (posted l)) (submit_request s) with
  | inr res => default [] (agent_trace (data res))
  | inl _ => []
  end.
Proof.
  intros Hok. rewrite (handleSubmit_accepted net s _ Hok). simpl.
  destruct (analysis_backend net (length (posted l)) (submit_request s))
    as [err|res]; [reflexivity|].
  destruct (agent_trace (data res)); reflexivity.
Qed.

Lemma submit_resets_trace_witness :
  trace (ui (run (handleSubmit Samples.backend_down initial_state)
               (world_of initial_state)))
  = [js "Initializing autonomous intelligence engine..."].
Proof.
  exact (submit_resets_trace Samples.backend_down initial_state [] eq_refl).
Defined.

(** ** Input validation *)

(** C4. A submission in single mode whose domain is empty or consists of
    white space only sets the validation message as the error and returns:
    no request is posted (the log of effects is untouched), and [loading],
    [result] and [trace] keep their values. *)
Theorem blank_domain_rejected (net : Net) (s : State) (l : list Effect) :
  mode s = single ->
  forallb is_js_whitespace (domain s) = true ->
  let w' := run (handleSubmit net s) {| ui := s; log := l |} in
  error (ui w') = Some (js "Please enter a valid domain (e.g., example.com)") /\
  log w' = l /\
  posted (log w') = posted l /\
  loading (ui w') = loading s /\
  result (ui w') = result s /\
  trace (ui w') = trace s.
Proof.
  intros Hm Hd w'.
  assert (Hrej : rejects_input s = true) by (apply rejects_input_iff; auto).
  subst w'. rewrite (handleSubmit_rejected net s _ Hrej). simpl.
  repeat split; reflexivity.
Qed.

Lemma blank_domain_rejected_witness :
  let w' := run (handleSubmit (Samples.backend_answering (Samples.analysis_with None))
                   Samples.blank_single_state)
                {| ui := Samples.blank_single_state; log := [] |} in
  error (ui w') = Some (js "Please enter a valid domain (e.g., example.com)") /\
  log w' = [] /\
  posted (log w') = posted [] /\
  loading (ui w') = false /\
  result (ui w') = None /\
  trace (ui w') = [].
Proof.
  exact (blank_domain_rejected
           (Samples.backend_answering (Samples.analysis_with None))
           Samples.blank_single_state [] eq_refl eq_refl).
Defined.

(** ** The outcome of a submission *)

(** C9, as amended. After a submission that passed the input guard has
    completed, [loading] is false and exactly one of [result] and [error] is
    set: when the request succeeded (it was answered and the answer's trace
    was shown) [result] holds the response and [error] is null; when it
    failed (the request was not answered, or the answer had no trace to
    iterate) [error] holds a message and [result] is null.  They are never
    both non-null. *)
Theorem submit_outcome_consistent (net : Net) (s : State) (l : list Effect) :
  rejects_input s = false ->
  let w' := run (handleSubmit net s) {| ui := s; log := l |} in
  loading (ui w') = false /\
  ~ (is_Some (result (ui w')) /\ is_Some (error (ui w'))) /\
  match analysis_backend net (length (posted l)) (submit_request s) with
  | inr res =>
    match agent_trace (data res) with
    | Some _ =>
      result (ui w') = Some {| Result.data := data res; Result.mode := mode s |} /\
      error (ui w') = None
    | None =>
      result (ui w') = None /\
      exists msg, error (ui w') = Some msg /\ truthy msg = true
    end
  | inl err =>
    result (ui w') = None /\
    exists msg, error (ui w') = Some msg /\ truthy msg = true
  end.
Proof.
  intros Hok w'. subst w'. rewrite (handleSubmit_accepted net s _ Hok). simpl.
  destruct (analysis_backend net (length (posted l)) (submit_request s))
    as [err|res]; simpl.
  - split; [reflexivity|]. split.
    + intros [[x Hx] _]. discriminate.
    + split; [reflexivity|]. eexists. split; [reflexivity|].
      unfold or_else. destruct (error_detail err) as [d|]; [|reflexivity].
      destruct (truthy d) eqn:E; [exact E | reflexivity].
  - destruct (agent_trace (data res)) as [tr|]; simpl.
    + split; [reflexivity|]. split.
      * intros [_ [x Hx]]. discriminate.
      * split; reflexivity.
    + split; [reflexivity|]. split.
      * intros [[x Hx] _]. discriminate.
      * split; [reflexivity|]. eexists. split; reflexivity.
Qed.

Lemma submit_outcome_consistent_witness :
  let w' := run (handleSubmit Samples.backend_down initial_state)
                {| ui := initial_state; log := [] |} in
  loading (ui w') = false /\
  ~ (is_Some (result (ui w')) /\ is_Some (error (ui w'))) /\
  result (ui w') = None /\
  exists msg, error (ui w') = Some msg /\ truthy msg = true.
Proof.
  exact (submit_outcome_consistent Samples.backend_down initial_state [] eq_refl).
Defined.

(** C9 as first stated fails in two ways.  On the guard's early return:
    from the initial page, a campaign run that finds leads, a switch to
    single mode and a blank typed as domain; the submission that follows
    completes with the earlier [result] still set and the validation message
    as [error].  On an answered request: an answer without an [agent_trace]
    makes the loop throw, so the request succeeded and yet [error] is set. *)
Lemma submit_outcome_consistent_counterexample :
  (let net := Samples.backend_answering (Samples.analysis_with (Some [Samples.tiny_lead])) in
   let w := run_events net [SubmitForm; ClickDeepAnalyze; ChangeDomain (js " ")]
              (world_of initial_state) in
   let w' := run (handleSubmit net (ui w)) w in
   dispatch net SubmitForm w = w' /\
   is_Some (result (ui w')) /\
   is_Some (error (ui w')) /\
   error (ui w') = Some (js "Please enter a valid domain (e.g., example.com)")) /\
  (let net := Samples.backend_answering Samples.analysis_without_trace in
   let w' := run (handleSubmit net initial_state) (world_of initial_state) in
   analysis_backend net 0 (submit_request initial_state)
     = inr {| data := Samples.analysis_without_trace |} /\
   error (ui w') = Some (js "Failed to execute request. Is the backend running?")).
Proof.
  split.
  - vm_compute. repeat split; try reflexivity; eexists; reflexivity.
  - vm_compute. split; reflexivity.
Qed.

(** ** Campaign results without leads *)

(** C7, as amended. When the back end answers a campaign submission with a
    response that carries an [agent_trace] list and whose [leads] field is
    missing or empty, the submission counts as a success: no error is set,
    the response becomes the result, and the results column shows the
    no-leads notice and not a single lead card. *)
Theorem empty_leads_notice (net : Net) (s : State) (l : list Effect)
    (res : Response Analysis) (tr : list jsstring) :
  mode s = campaign ->
  analysis_backend net (length (posted l)) (submit_request s) = inr res ->
  agent_trace (data res) = Some tr ->
  leads (data res) = None \/ leads (data res) = Some [] ->
  let w' := run (handleSubmit net s) {| ui := s; log := l |} in
  error (ui w') = None /\
  result (ui w') = Some {| Result.data := data res; Result.mode := campaign |} /\
  render_results (ui w') = NoLeadsNotice /\
  lead_cards (render_results (ui w')) = [].
Proof.
  intros Hm Hres Htr Hleads w'. subst w'.
  rewrite (handleSubmit_accepted net s _ (campaign_not_rejected s Hm)). simpl.
  rewrite Hres, Htr, Hm. unfold render_results, renderCampaignResults, no_leads. simpl.
  destruct Hleads as [-> | ->]; simpl; repeat split; reflexivity.
Qed.

Lemma empty_leads_notice_witness :
  let w' := run (handleSubmit (Samples.backend_answering (Samples.analysis_with None))
                   initial_state)
                {| ui := initial_state; log := [] |} in
  error (ui w') = None /\
  result (ui w') = Some {| Result.data := Samples.analysis_with None;
                           Result.mode := campaign |} /\
  render_results (ui w') = NoLeadsNotice /\
  lead_cards (render_results (ui w')) = [].
Proof.
  exact (empty_leads_notice
           (Samples.backend_answering (Samples.analysis_with None))
           initial_state [] {| data := Samples.analysis_with None |}
           Samples.server_trace eq_refl eq_refl eq_refl (or_introl eq_refl)).
Defined.

(** C7 as first stated fails on an answer that has an empty [leads] list but
    no [agent_trace]: the loop over the trace throws, the [catch] sets the
    error, no result is stored and the page shows the placeholder, not the
    no-leads notice. *)
Lemma empty_leads_notice_counterexample :
  let res := {| data := Samples.analysis_without_trace |} in
  let net := Samples.backend_answering Samples.analysis_without_trace in
  let w' := run (handleSubmit net initial_state) {| ui := initial_state; log := [] |} in
  mode initial_state = campaign /\
  analysis_backend net 0 (submit_request initial_state) = inr res /\
  leads (data res) = Some [] /\
  error (ui w') = Some (js "Failed to execute request. Is the backend running?") /\
  result (ui w') = None /\
  render_results (ui w') = AwaitingAnalysis /\
  render_results (ui w') <> NoLeadsNotice.
Proof.
  vm_compute. repeat split; try reflexivity. discriminate.
Qed.

(** ** Drafting an email *)

(** C5. For every lead and index, [handleGenerateEmail] posts one request,
    to /generate_email, whose body has exactly the four fields
    [company_name], [domain], [why_we_help] and [service_category], holding
    the lead's name, domain and justification and the category selected in
    the page; when the back end answers, the email stored under the index is
    the [email_body] of the answer. *)
Theorem generate_email_request (net : Net) (s : State) (l : list Effect)
    (lead : Lead.t) (index : nat) :
  let w' := run (handleGenerateEmail net s lead index) {| ui := s; log := l |} in
  let req := {| url := API_BASE_URL ++ js "/generate_email";
                body := [(js "company_name", Lead.name lead);
                         (js "domain", Lead.domain lead);
                         (js "why_we_help", Lead.why_we_help lead);
                         (js "service_category", serviceCategory s)] |} in
  posted (log w') = posted l ++ [req] /\
  map fst (body req) =
    [js "company_name"; js "domain"; js "why_we_help"; js "service_category"] /\
  (forall res, email_backend net (length (posted l)) req = inr res ->
               emails (ui w') !! index = Some (email_body (data res))).
Proof.
  intros w' req. subst w'. rewrite handleGenerateEmail_run. simpl.
  fold (email_request s lead). change req with (email_request s lead).
  split; [|split].
  - destruct (email_backend net (length (posted l)) (email_request s lead));
      simpl; unfold posted; rewrite omap_app; reflexivity.
  - reflexivity.
  - intros res Hres. rewrite Hres. simpl. apply lookup_insert_eq.
Qed.

Lemma generate_email_request_witness :
  emails (ui (run (handleGenerateEmail
                     (Samples.backend_answering (Samples.analysis_with None))
                     Samples.state_with_leads Samples.tiny_lead 0)
                {| ui := Samples.state_with_leads; log := [] |})) !! 0%nat
  = Some (js "Hi team, ...").
Proof.
  exact (proj2 (proj2 (generate_email_request
                         (Samples.backend_answering (Samples.analysis_with None))
                         Samples.state_with_leads [] Samples.tiny_lead 0))
           {| data := Samples.email_reply |} eq_refl).
Defined.

(** C6. Drafting (or drafting again) the email of lead [i] touches the
    [emails] and [emailLoading] entries of key [i] only: the entries of any
    other key [j], and the result (with its leads), the trace and the error,
    are as before, whatever the back end answers; a further call for the
    same lead posts the same request as this one, so the calls do not depend
    on each other. *)
Theorem generate_email_frame (net : Net) (s : State) (l : list Effect)
    (lead : Lead.t) (i j : nat) :
  j <> i ->
  let w' := run (handleGenerateEmail net s lead i) {| ui := s; log := l |} in
  emails (ui w') !! j = emails s !! j /\
  emailLoading (ui w') !! j = emailLoading s !! j /\
  result (ui w') = result s /\
  trace (ui w') = trace s /\
  error (ui w') = error s /\
  email_request (ui w') lead = email_request s lead.
Proof.
  intros Hne w'. subst w'. rewrite handleGenerateEmail_run. simpl.
  destruct (email_backend net (length (posted l)) (email_request s lead));
    simpl; rewrite ?lookup_insert_ne by congruence; repeat split; reflexivity.
Qed.

Lemma generate_email_frame_witness :
  let w' := run (handleGenerateEmail
                   (Samples.backend_answering (Samples.analysis_with None))
                   Samples.state_with_leads Samples.tiny_lead 0)
                {| ui := Samples.state_with_leads; log := [] |} in
  emails (ui w') !! 1%nat = None /\
  emailLoading (ui w') !! 1%nat = None /\
  result (ui w') = result Samples.state_with_leads /\
  trace (ui w') = [] /\
  error (ui w') = None /\
  email_request (ui w') Samples.tiny_lead =
    email_request Samples.state_with_leads Samples.tiny_lead.
Proof.
  refine (generate_email_frame
            (Samples.backend_answering (Samples.analysis_with None))
            Samples.state_with_leads [] Samples.tiny_lead 0 1 _).
  lia.
Defined.

(** ** The deep-analysis report *)

(** C10. In the report of a deep analysis the verdict banner has the YES
    style (green border, check icon) if and only if [verdict.recommendation]
    is the string "YES"; with any other value, or none, it has the NO style
    (red border, cross icon).  The score is green iff it is at least 60,
    yellow iff it is at least 35 and below 60, and red in every other case
    (below 35, or no score). *)
Theorem verdict_banner_style (r : Result.t) (d : Dossier.t) :
  company_dossier (Result.data r) = Some d ->
  exists rep : DeepReport,
    renderSingleDomainResults r = Report rep /\
    let v := verdict (Result.data r) in
    let b := banner rep in
    ((border b = green /\ icon b = CheckCircle2) <->
       v ≫= Verdict.recommendation = Some (js "YES")) /\
    (v ≫= Verdict.recommendation <> Some (js "YES") ->
       border b = red /\ icon b = XCircle) /\
    (score_color b = green <->
       exists z, v ≫= Verdict.score = Some z /\ 60 <= z) /\
    (score_color b = yellow <->
       exists z, v ≫= Verdict.score = Some z /\ 35 <= z < 60) /\
    (score_color b = red <->
       ~ exists z, v ≫= Verdict.score = Some z /\ 35 <= z).
Proof.
  intros Hd. unfold renderSingleDomainResults. rewrite Hd.
  eexists. split; [reflexivity|]. simpl.
  set (v := verdict (Result.data r)).
  assert (Hyes : isYes v = true <-> v ≫= Verdict.recommendation = Some (js "YES")).
  { unfold isYes, jsstring_eqb.
    destruct (v ≫= Verdict.recommendation) as [x|].
    - rewrite bool_decide_eq_true. split; congruence.
    - split; discriminate. }
  split; [|split].
  - rewrite <- Hyes. destruct (isYes v); split; try tauto.
    + intros [H _]. discriminate.
    + discriminate.
  - intros Hne. destruct (isYes v) eqn:E; [|split; reflexivity].
    exfalso. apply Hne, Hyes. reflexivity.
  - unfold scoreColor, js_ge. destruct (v ≫= Verdict.score) as [z|].
    + destruct (60 <=? z) eqn:E60; [apply Z.leb_le in E60 | apply Z.leb_gt in E60];
        (destruct (35 <=? z) eqn:E35; [apply Z.leb_le in E35 | apply Z.leb_gt in E35]).
      all: repeat split; try discriminate; try reflexivity.
      all: try (intros _; exists z; split; [reflexivity | lia]).
      all: try (intros [z' [Hz Hb]]; inversion Hz; subst; lia).
      all: try (intros _ [z' [Hz Hb]]; inversion Hz; subst; lia).
      all: try (intros Hn; exfalso; apply Hn; exists z; split; [reflexivity | lia]).
    + repeat split; try discriminate.
      all: try (intros [z' [Hz _]]; discriminate).
      all: try (intros _ [z' [Hz _]]; discriminate).
Qed.

Lemma verdict_banner_style_witness :
  exists rep : DeepReport,
    renderSingleDomainResults (Samples.deep_result (Some (js "YES")) (Some 72))
      = Report rep /\
    border (banner rep) = green /\ icon (banner rep) = CheckCircle2 /\
    score_color (banner rep) = green.
Proof.
  destruct (verdict_banner_style
              (Samples.deep_result (Some (js "YES")) (Some 72))
              Samples.acme_dossier eq_refl)
    as [rep [Hrep [Hyes [_ [Hgreen _]]]]].
  exists rep. split; [exact Hrep|].
  destruct (proj2 Hyes eq_refl) as [Hb Hi].
  split; [exact Hb|]. split; [exact Hi|].
  apply (proj2 Hgreen). exists 72. split; [reflexivity | lia].
Defined.

(** ** The category sent with a campaign request *)

Lemma posted_pauses (tr : list jsstring) :
  posted (map (fun _ => Slept 600) tr) = [].
Proof. induction tr; simpl; auto. Qed.

Lemma posted_app (l1 l2 : list Effect) :
  posted (l1 ++ l2) = posted l1 ++ posted l2.
Proof. unfold posted. apply omap_app. Qed.

Lemma copy_posts_nothing (text : jsstring) (w : World) :
  posted (log (run (copyToClipboard text) w)) = posted (log w).
Proof.
  unfold run, copyToClipboard, bind, effect. simpl.
  rewrite !posted_app. simpl. rewrite !app_nil_r. reflexivity.
Qed.

(** An event leaves the selected category alone or sets it to one of the
    options of the select. *)
Lemma dispatch_category (net : Net) (ev : Event) (w : World) :
  serviceCategory (ui (dispatch net ev w)) = serviceCategory (ui w) \/
  serviceCategory (ui (dispatch net ev w)) ∈ SERVICE_CATEGORIES.
Proof.
  destruct ev; simpl.
  - left. reflexivity.
  - left. reflexivity.
  - destruct (_ && _); left; reflexivity.
  - destruct (_ && _); [|left; reflexivity].
    destruct (SERVICE_CATEGORIES !! option_index) as [c|] eqn:E; [|left; reflexivity].
    right. simpl. eapply list_elem_of_lookup_2. exact E.
  - destruct (_ || _); [left; reflexivity|].
    destruct (rejects_input (ui w)) eqn:Hr.
    + rewrite (handleSubmit_rejected _ _ _ Hr). left. reflexivity.
    + rewrite (handleSubmit_accepted _ _ _ Hr).
      case_answer; left; reflexivity.
  - destruct (shown_lead (ui w) idx); [|left; reflexivity].
    destruct (flag_at _ _); [left; reflexivity|].
    rewrite handleGenerateEmail_run.
    destruct (email_backend _ _ _); left; reflexivity.
  - destruct (shown_lead (ui w) idx); left; reflexivity.
  - destruct (shown_lead (ui w) idx); [|left; reflexivity].
    destruct (email_at _ _); left; reflexivity.
  - destruct (render_results (ui w)); left; reflexivity.
Qed.

(** An event posts nothing, or the request of [handleSubmit], or the
    request of [handleGenerateEmail], built from the state it was raised in. *)
Lemma dispatch_posted (net : Net) (ev : Event) (w : World) :
  posted (log (dispatch net ev w)) = posted (log w) \/
  posted (log (dispatch net ev w)) = posted (log w) ++ [submit_request (ui w)] \/
  exists lead,
    posted (log (dispatch net ev w)) = posted (log w) ++ [email_request (ui w) lead].
Proof.
  destruct ev; simpl.
  - left. reflexivity.
  - left. reflexivity.
  - destruct (_ && _); left; reflexivity.
  - destruct (_ && _); [|left; reflexivity].
    destruct (SERVICE_CATEGORIES !! option_index); left; reflexivity.
  - destruct (_ || _); [left; reflexivity|].
    destruct (rejects_input (ui w)) eqn:Hr.
    + rewrite (handleSubmit_rejected _ _ _ Hr). left. reflexivity.
    + rewrite (handleSubmit_accepted _ _ _ Hr). right. left.
      case_answer; simpl; rewrite posted_app; simpl;
        rewrite ?posted_pauses; reflexivity.
  - destruct (shown_lead (ui w) idx) as [lead|]; [|left; reflexivity].
    destruct (flag_at _ _); [left; reflexivity|].
    right. right. exists lead. rewrite handleGenerateEmail_run.
    destruct (email_backend _ _ _); simpl; rewrite posted_app; reflexivity.
  - destruct (shown_lead (ui w) idx); [|left; reflexivity].
    left. apply copy_posts_nothing.
  - destruct (shown_lead (ui w) idx); [|left; reflexivity].
    destruct (email_at _ _); [|left; reflexivity].
    left. apply copy_posts_nothing.
  - destruct (render_results (ui w)); left; try reflexivity.
    apply copy_posts_nothing.
Qed.

(** The invariant of the page: the selected category is an option of the
    select, and so is the category of every request posted to /analyze. *)
Lemma category_invariant (net : Net) (evs : list Event) (w : World) :
  serviceCategory (ui w) ∈ SERVICE_CATEGORIES ->
  (forall r, r ∈ posted (log w) -> url r = API_BASE_URL ++ js "/analyze" ->
     exists c, c ∈ SERVICE_CATEGORIES /\ body r = [(js "service_category", c)]) ->
  serviceCategory (ui (run_events net evs w)) ∈ SERVICE_CATEGORIES /\
  (forall r, r ∈ posted (log (run_events net evs w)) ->
     url r = API_BASE_URL ++ js "/analyze" ->
     exists c, c ∈ SERVICE_CATEGORIES /\ body r = [(js "service_category", c)]).
Proof.
  revert w. induction evs as [|ev evs IH]; intros w Hcat Hlog; [split; assumption|].
  simpl. apply IH.
  - destruct (dispatch_category net ev w) as [-> | H]; assumption.
  - intros r Hr Hurl.
    destruct (dispatch_posted net ev w) as [E | [E | [lead E]]];
      rewrite E in Hr; [auto | |].
    + apply elem_of_app in Hr as [Hr | Hr]; [auto|].
      apply list_elem_of_singleton in Hr. subst r.
      unfold submit_request in *.
      destruct (Mode_eqb (mode (ui w)) campaign); simpl in *.
      * exists (serviceCategory (ui w)). split; [assumption | reflexivity].
      * exfalso. vm_compute in Hurl. discriminate Hurl.
    + apply elem_of_app in Hr as [Hr | Hr]; [auto|].
      apply list_elem_of_singleton in Hr. subst r.
      exfalso. vm_compute in Hurl. discriminate Hurl.
Qed.

(** C3. Whatever the user does from the initial page, every request posted
    to /analyze carries exactly one field, [service_category], and its value
    is one of the four categories: the state starts at "Application
    Development" and is only ever set to an option of the select, which
    offers [SERVICE_CATEGORIES]. *)
Theorem analyze_category_known (net : Net) (evs : list Event) (r : Request) :
  r ∈ posted (log (run_events net evs (world_of initial_state))) ->
  url r = API_BASE_URL ++ js "/analyze" ->
  exists c,
    c ∈ [js "Application Development"; js "AI & Data Analytics";
         js "Cloud & DevOps"; js "Digital Transformation"] /\
    body r = [(js "service_category", c)].
Proof.
  intros Hr Hurl.
  destruct (category_invariant net evs (world_of initial_state)) as [_ H].
  - unfold SERVICE_CATEGORIES. simpl. apply list_elem_of_here.
  - simpl. intros r' Hr'. inversion Hr'.
  - exact (H r Hr Hurl).
Qed.

Lemma analyze_category_known_witness :
  exists c,
    c ∈ [js "Application Development"; js "AI & Data Analytics";
         js "Cloud & DevOps"; js "Digital Transformation"] /\
    [(js "service_category", js "Cloud & DevOps")] = [(js "service_category", c)].
Proof.
  apply (analyze_category_known
           (Samples.backend_answering (Samples.analysis_with (Some [])))
           [ChangeCategory 2; SubmitForm]
           {| url := API_BASE_URL ++ js "/analyze";
              body := [(js "service_category", js "Cloud & DevOps")] |}).
  - vm_compute. apply list_elem_of_here.
  - reflexivity.
Defined.

(** * Properties of the lead pipeline *)

Section PipelineProperties.
Import Pipeline.

Variable blocklist : list BlocklistEntry.
Variable size_signal : option (string -> bool).
Variable build_query : string -> option string.
Variable search : string -> nat -> option (list Hit).
Variable normalize_hit : Hit -> option Candidate.
Variable llm : list Candidate -> string -> bool -> LlmOutcome.

Lemma exact_match_blocklisted (c : Candidate) :
  In (ExactDomain (domain c)) blocklist -> exact_match blocklist c = true.
Proof.
  intros H. unfold exact_match. apply existsb_exists.
  exists (ExactDomain (domain c)). split; [exact H|].
  apply bool_decide_eq_true. reflexivity.
Qed.

(** No candidate that leaves the guard has a blocklisted domain. *)
Lemma guard_drops_blocklisted (cands : list Candidate) (c : Candidate) :
  In c (EnterpriseGuard blocklist size_signal cands) ->
  ~ In (ExactDomain (domain c)) blocklist.
Proof.
  unfold EnterpriseGuard. intros Hc Hbl.
  apply filter_In in Hc as [_ Hkeep].
  unfold is_enterprise in Hkeep.
  rewrite (exact_match_blocklisted c Hbl) in Hkeep. discriminate.
Qed.

(** The guard only selects: what it returns was in its input. *)
Lemma guard_selects (cands : list Candidate) (c : Candidate) :
  In c (EnterpriseGuard blocklist size_signal cands) -> In c cands.
Proof. unfold EnterpriseGuard. intros H. apply filter_In in H. tauto. Qed.

(** Every lead of the synthesizer has the domain of a candidate it was
    given. *)
Lemma synthesizer_known_domains (cands : list Candidate) (category : string)
    (ls : list Lead) (l : Lead) :
  LeadSynthesizer llm cands category = Some ls ->
  In l ls -> In (lead_domain l) (List.map domain cands).
Proof.
  unfold LeadSynthesizer. intros Hs Hl.
  assert (Hfilter : forall raw, In l (List.filter (known_domain cands) raw) ->
                                In (lead_domain l) (List.map domain cands)).
  { intros raw H. apply filter_In in H as [_ H].
    unfold known_domain in H. apply bool_decide_eq_true in H.
    apply list_elem_of_In. exact H. }
  destruct (llm cands category false) as [raw| |].
  - inversion Hs; subst. eauto.
  - destruct (llm cands category true) as [raw| |].
    + inversion Hs; subst. eauto.
    + inversion Hs; subst. destruct Hl.
    + discriminate.
  - discriminate.
Qed.

Lemma In_firstn {A} (k : nat) (l : list A) (x : A) :
  In x (firstn k l) -> In x l.
Proof.
  intros H. rewrite <- (firstn_skipn k l). apply in_or_app. left. exact H.
Qed.

Lemma capped_guard_clean (hits : list Hit) (k : nat) (d : string) :
  In (ExactDomain d) blocklist ->
  ~ In d (List.map domain
            (firstn k (EnterpriseGuard blocklist size_signal
                         (ResultNormalizer normalize_hit hits)))).
Proof.
  intros Hbl Hd. apply in_map_iff in Hd as [c [Hdc Hc]].
  apply In_firstn in Hc. subst d.
  exact (guard_drops_blocklisted _ c Hc Hbl).
Qed.

(** Scenario B of the design document: when the search returns no hit, the
    response has no lead and LeadSynthesizer is not called. *)
Lemma no_hits_no_synthesis (category q : string) :
  build_query category = Some q ->
  search q TOP_N = Some [] ->
  synthesis_input blocklist size_signal build_query search normalize_hit category
    = None /\
  run_campaign blocklist size_signal build_query search normalize_hit llm category
    = inr {| leads := [];
             agent_trace := ["Scouting..."; "Filtering..."; "0 leads found"]%string |}.
Proof.
  intros Hq Hs. unfold synthesis_input, run_campaign. rewrite Hq. simpl.
  rewrite Hs. split; reflexivity.
Qed.

(** The orchestrator consults the language model at one argument only, the
    candidates of [synthesis_input]: two models that answer alike there give
    the same run, and when [synthesis_input] is [None] the run does not
    depend on the model at all. *)
Lemma run_campaign_calls_llm_at_synthesis_input
    (llm' : list Candidate -> string -> bool -> LlmOutcome) (category : string) :
  (forall cands corrective,
     synthesis_input blocklist size_signal build_query search normalize_hit
       category = Some cands ->
     llm' cands category corrective = llm cands category corrective) ->
  run_campaign blocklist size_signal build_query search normalize_hit llm' category
  = run_campaign blocklist size_signal build_query search normalize_hit llm category.
Proof.
  unfold synthesis_input, run_campaign. intros Hagree.
  destruct (build_query category) as [q|]; [|reflexivity]. simpl in Hagree.
  destruct (search q TOP_N) as [hits|]; [|reflexivity]. simpl in Hagree.
  destruct (EnterpriseGuard _ _ _) as [|c cs]; [reflexivity|].
  unfold LeadSynthesizer.
  rewrite !(Hagree _ _ eq_refl). reflexivity.
Qed.

(** C1. For every run of the campaign pipeline and every domain that is an
    exact entry of the blocklist: the only candidates the run hands to
    LeadSynthesizer (the run consults the language model at them and nowhere
    else) do not include that domain, EnterpriseGuard having dropped it
    before the call; and no lead of the response has it. *)
Theorem blocklisted_domain_never_output (category d : string) :
  In (ExactDomain d) blocklist ->
  (forall cands,
     synthesis_input blocklist size_signal build_query search normalize_hit
       category = Some cands ->
     ~ In d (List.map domain cands)) /\
  (forall llm' : list Candidate -> string -> bool -> LlmOutcome,
     (forall cands corrective,
        synthesis_input blocklist size_signal build_query search normalize_hit
          category = Some cands ->
        llm' cands category corrective = llm cands category corrective) ->
     run_campaign blocklist size_signal build_query search normalize_hit llm'
       category
     = run_campaign blocklist size_signal build_query search normalize_hit llm
         category) /\
  (forall resp,
     run_campaign blocklist size_signal build_query search normalize_hit llm
       category = inr resp ->
     ~ In d (List.map lead_domain (leads resp))).
Proof.
  intros Hbl. split; [|split].
  - intros cands. unfold synthesis_input.
    destruct (build_query category) as [q|]; [|discriminate]. simpl.
    destruct (search q TOP_N) as [hits|]; [|discriminate]. simpl.
    pose proof (capped_guard_clean hits TOP_K d Hbl) as Hclean.
    destruct (EnterpriseGuard _ _ _) as [|c cs]; [discriminate|].
    intros E. inversion E; subst. exact Hclean.
  - intros llm'. apply run_campaign_calls_llm_at_synthesis_input.
  - intros resp. unfold run_campaign.
    destruct (build_query category) as [q|]; [|discriminate].
    destruct (search q TOP_N) as [hits|]; [|discriminate].
    pose proof (capped_guard_clean hits TOP_K d Hbl) as Hclean.
    destruct (EnterpriseGuard _ _ _) as [|c cs].
    + intros E. inversion E; subst. simpl. tauto.
    + destruct (LeadSynthesizer llm _ category) as [ls|] eqn:Hs; [|discriminate].
      intros E. inversion E; subst. simpl.
      intros Hd. apply in_map_iff in Hd as [l [Hdl Hl]]. subst d.
      apply Hclean. exact (synthesizer_known_domains _ _ _ l Hs Hl).
Qed.

End PipelineProperties.

Lemma blocklisted_domain_never_output_witness :
  Samples.ScenarioA.response = inr Samples.ScenarioA.expected /\
  ~ In "bigcorp.com"%string
      (List.map Pipeline.lead_domain (Pipeline.leads Samples.ScenarioA.expected)).
Proof.
  split; [reflexivity|].
  refine (proj2 (proj2 (blocklisted_domain_never_output
                   Samples.ScenarioA.blocklist None Samples.ScenarioA.build_query
                   Samples.ScenarioA.search Samples.ScenarioA.normalize_hit
                   Samples.ScenarioA.llm "Cloud & DevOps" "bigcorp.com" _))
            Samples.ScenarioA.expected _).
  - left. reflexivity.
  - reflexivity.
Defined.

(** * Further properties of the front end *)

(** ** What [handleSubmit] posts *)

Lemma rejects_input_eq (s : State) :
  rejects_input s = Mode_eqb (mode s) single && forallb is_js_whitespace (domain s).
Proof.
  destruct (rejects_input s) eqn:E.
  - apply rejects_input_iff in E as [Hm Hd]. rewrite Hm, Hd. reflexivity.
  - destruct (Mode_eqb (mode s) single && forallb is_js_whitespace (domain s)) eqn:E';
      [|reflexivity].
    apply andb_prop in E' as [Hm Hd].
    assert (rejects_input s = true); [|congruence].
    apply rejects_input_iff. split; [|exact Hd].
    destruct (mode s); [discriminate | reflexivity].
Qed.

(** X1. [handleSubmit] posts nothing when the mode is single and the domain
    is empty or white space only; in every other case (campaign mode with
    any domain, single mode with a domain that has a visible character) it
    posts exactly one request, whatever the back end answers. *)
Theorem submit_posts_unless_blank (net : Net) (s : State) (l : list Effect) :
  posted (log (run (handleSubmit net s) {| ui := s; log := l |})) =
  if Mode_eqb (mode s) single && forallb is_js_whitespace (domain s)
  then posted l
  else posted l ++
       [if Mode_eqb (mode s) campaign then
          {| url := API_BASE_URL ++ js "/analyze";
             body := [(js "service_category", serviceCategory s)] |}
        else
          {| url := API_BASE_URL ++ js "/deep_analyze";
             body := [(js "domain", domain s);
                      (js "service_category", serviceCategory s)] |}].
Proof.
  rewrite <- rejects_input_eq. fold (submit_request s).
  destruct (rejects_input s) eqn:Hr.
  - rewrite (handleSubmit_rejected _ _ _ Hr). reflexivity.
  - rewrite (handleSubmit_accepted _ _ _ Hr). simpl.
    case_answer; simpl; rewrite posted_app; simpl; rewrite ?posted_pauses;
      reflexivity.
Qed.

(** X2. In single mode the guard looks at the trimmed domain, but the
    request carries the domain as it was typed: a domain with a visible
    character is posted to /deep_analyze with its surrounding white space. *)
Theorem deep_request_sends_raw_domain (net : Net) (s : State) (l : list Effect) :
  mode s = single ->
  forallb is_js_whitespace (domain s) = false ->
  posted (log (run (handleSubmit net s) {| ui := s; log := l |})) =
  posted l ++ [{| url := js "http://localhost:8000/deep_analyze";
                  body := [(js "domain", domain s);
                           (js "service_category", serviceCategory s)] |}].
Proof.
  intros Hm Hd.
  assert (Hr : rejects_input s = false).
  { rewrite rejects_input_eq, Hd. apply andb_false_r. }
  rewrite (handleSubmit_accepted _ _ _ Hr). simpl.
  unfold submit_request. rewrite Hm. simpl.
  case_answer; simpl; rewrite posted_app; simpl; rewrite ?posted_pauses;
    reflexivity.
Qed.

Lemma deep_request_sends_raw_domain_witness :
  posted (log (run (handleSubmit Samples.backend_down Samples.padded_single_state)
                 {| ui := Samples.padded_single_state; log := [] |})) =
  [{| url := js "http://localhost:8000/deep_analyze";
      body := [(js "domain", js " example.com ");
               (js "service_category", js "Application Development")] |}].
Proof.
  exact (deep_request_sends_raw_domain Samples.backend_down
           Samples.padded_single_state [] eq_refl eq_refl).
Defined.

(** X3. Whatever its outcome (rejected, answered or failed), [handleSubmit]
    leaves the mode, the domain, the selected category, the drafted emails
    and the email spinners as they were. *)
Theorem submit_frame (net : Net) (s : State) (l : list Effect) :
  let w' := run (handleSubmit net s) {| ui := s; log := l |} in
  mode (ui w') = mode s /\
  domain (ui w') = domain s /\
  serviceCategory (ui w') = serviceCategory s /\
  emails (ui w') = emails s /\
  emailLoading (ui w') = emailLoading s.
Proof.
  intros w'. subst w'. destruct (rejects_input s) eqn:Hr.
  - rewrite (handleSubmit_rejected _ _ _ Hr). repeat split; reflexivity.
  - rewrite (handleSubmit_accepted _ _ _ Hr). simpl.
    case_answer; repeat split; reflexivity.
Qed.

(** X4. A new campaign run does not clear the drafted emails: the cards of
    the new leads are rendered with the emails and spinners of the state
    before the run, so the card at an index shows the email that was
    drafted under that index for the earlier leads. *)
Theorem new_leads_keep_old_drafts (net : Net) (s : State) (l : list Effect)
    (res : Response Analysis) (tr : list jsstring) (x : Lead.t) (xs : list Lead.t) :
  mode s = campaign ->
  analysis_backend net (length (posted l)) (submit_request s) = inr res ->
  agent_trace (data res) = Some tr ->
  leads (data res) = Some (x :: xs) ->
  render_results (ui (run (handleSubmit net s) {| ui := s; log := l |})) =
  LeadList (S (length xs)) (imap (renderLeadCard s) (x :: xs)).
Proof.
  intros Hm Hres Htr Hl.
  rewrite (handleSubmit_accepted _ _ _ (campaign_not_rejected s Hm)). simpl.
  rewrite Hres, Htr, Hm. unfold render_results, renderCampaignResults, no_leads. simpl.
  rewrite Hl. reflexivity.
Qed.

Lemma new_leads_keep_old_drafts_witness :
  map drafted_email
    (lead_cards
       (render_results
          (ui (run (handleSubmit Samples.backend_numbering Samples.state_with_draft)
                 {| ui := Samples.state_with_draft; log := [] |}))))
  = [Some (js "Earlier draft")].
Proof.
  rewrite (new_leads_keep_old_drafts Samples.backend_numbering
             Samples.state_with_draft []
             {| data := Samples.analysis_with (Some [Samples.acme_lead]) |}
             Samples.server_trace Samples.acme_lead [] eq_refl eq_refl eq_refl eq_refl).
  reflexivity.
Defined.

(** X5. When the request of [handleSubmit] fails, the error shown is the
    [detail] of the error response when there is one and it is not empty; it
    is the fixed message "Failed to execute request. Is the backend running?"
    when the error has no response, no data, no detail, or an empty detail. *)
Theorem submit_failure_error (net : Net) (s : State) (l : list Effect)
    (err : AxiosError) :
  rejects_input s = false ->
  analysis_backend net (length (posted l)) (submit_request s) = inl err ->
  let shown := error (ui (run (handleSubmit net s) {| ui := s; log := l |})) in
  (forall d, error_detail err = Some d -> d <> [] -> shown = Some d) /\
  (response err = None \/ error_detail err = None \/ error_detail err = Some [] ->
   shown = Some (js "Failed to execute request. Is the backend running?")).
Proof.
  intros Hr Hn shown. subst shown.
  rewrite (handleSubmit_accepted _ _ _ Hr). simpl. rewrite Hn. simpl.
  unfold or_else. split.
  - intros d Hd Hne. rewrite Hd. destruct d; [congruence | reflexivity].
  - intros [H | [H | H]].
    + unfold error_detail. rewrite H. reflexivity.
    + rewrite H. reflexivity.
    + rewrite H. reflexivity.
Qed.

Lemma submit_failure_error_witness :
  error (ui (run (handleSubmit (Samples.backend_refusing []) initial_state)
               {| ui := initial_state; log := [] |}))
  = Some (js "Failed to execute request. Is the backend running?").
Proof.
  refine (proj2 (submit_failure_error (Samples.backend_refusing []) initial_state []
                   {| response := Some {| data := Some {| detail := Some [] |} |} |}
                   eq_refl eq_refl) _).
  right. right. reflexivity.
Defined.

(** ** Drafting emails: failure, re-enabling, drafting again *)

(** X6. When the request of [handleGenerateEmail] fails, no email is stored
    or removed (a draft made earlier for the same lead stays), the spinner
    of the lead is switched off, and the only outside effects are the
    request, one console error and one alert with the fixed message. *)
Theorem generate_email_failure (net : Net) (s : State) (l : list Effect)
    (lead : Lead.t) (index : nat) (err : AxiosError) :
  email_backend net (length (posted l)) (email_request s lead) = inl err ->
  let w' := run (handleGenerateEmail net s lead index) {| ui := s; log := l |} in
  emails (ui w') = emails s /\
  emailLoading (ui w') !! index = Some false /\
  log w' = l ++ [Posted (email_request s lead); ConsoleError;
                 Alerted (js "Failed to generate email. Is the backend running?")].
Proof.
  intros Hn w'. subst w'. rewrite handleGenerateEmail_run. simpl. rewrite Hn. simpl.
  split; [reflexivity|]. split; [apply lookup_insert_eq | reflexivity].
Qed.

Lemma generate_email_failure_witness :
  emails (ui (run (handleGenerateEmail Samples.backend_down Samples.state_with_draft
                     Samples.tiny_lead 0)
                {| ui := Samples.state_with_draft; log := [] |})) !! 0%nat
  = Some (js "Earlier draft").
Proof.
  rewrite (proj1 (generate_email_failure Samples.backend_down Samples.state_with_draft
                    [] Samples.tiny_lead 0 {| response := None |} eq_refl)).
  reflexivity.
Defined.

(** X7. Whatever the back end answers, after [handleGenerateEmail] the
    spinner entry of the lead is [false]: the card's button is enabled
    again and shows the mail icon. *)
Theorem generate_email_reenables (net : Net) (s : State) (l : list Effect)
    (lead : Lead.t) (index : nat) :
  let s' := ui (run (handleGenerateEmail net s lead index) {| ui := s; log := l |}) in
  emailLoading s' !! index = Some false /\
  draft_disabled (renderLeadCard s' index lead) = false /\
  draft_spinner (renderLeadCard s' index lead) = false.
Proof.
  intros s'. subst s'. rewrite handleGenerateEmail_run. simpl.
  destruct (email_backend net (length (posted l)) (email_request s lead));
    simpl; unfold flag_at; rewrite lookup_insert_eq; repeat split; reflexivity.
Qed.

(** X8. Drafting again overwrites: when a second call for the same index is
    answered, the stored email is the [email_body] of the second answer,
    whatever the first call stored or failed to store. *)
Theorem regenerate_last_wins (net : Net) (s : State) (l : list Effect)
    (lead : Lead.t) (index : nat) (res2 : Response EmailReply) :
  let w1 := run (handleGenerateEmail net s lead index) {| ui := s; log := l |} in
  let w2 := run (handleGenerateEmail net (ui w1) lead index) w1 in
  email_backend net (S (length (posted l))) (email_request s lead) = inr res2 ->
  emails (ui w2) !! index = Some (email_body (data res2)) /\
  posted (log w2) = posted l ++ [email_request s lead; email_request s lead].
Proof.
  intros w1 w2 H2. subst w2.
  assert (Hreq : email_request (ui w1) lead = email_request s lead).
  { subst w1. rewrite handleGenerateEmail_run. simpl.
    destruct (email_backend net (length (posted l)) (email_request s lead));
      reflexivity. }
  assert (Hposted : posted (log w1) = posted l ++ [email_request s lead]).
  { subst w1. rewrite handleGenerateEmail_run. simpl.
    destruct (email_backend net (length (posted l)) (email_request s lead));
      simpl; rewrite posted_app; reflexivity. }
  rewrite handleGenerateEmail_run. rewrite Hreq, Hposted.
  rewrite length_app. simpl. rewrite Nat.add_1_r. rewrite H2. simpl.
  split; [apply lookup_insert_eq|].
  rewrite posted_app, Hposted. simpl. rewrite <- app_assoc. reflexivity.
Qed.

Lemma regenerate_last_wins_witness :
  let w1 := run (handleGenerateEmail Samples.backend_numbering Samples.state_with_leads
                   Samples.tiny_lead 0)
                {| ui := Samples.state_with_leads; log := [] |} in
  emails (ui w1) !! 0%nat = Some (js "first draft") /\
  emails (ui (run (handleGenerateEmail Samples.backend_numbering (ui w1)
                     Samples.tiny_lead 0) w1)) !! 0%nat
  = Some (js "second draft").
Proof.
  split; [reflexivity|].
  exact (proj1 (regenerate_last_wins Samples.backend_numbering Samples.state_with_leads
                  [] Samples.tiny_lead 0
                  {| data := {| email_body := js "second draft";
                                subject_line := js "Hello" |} |}
                  eq_refl)).
Defined.

(** X9. After an answered [handleGenerateEmail] the card of the lead shows
    the email and the label "Regenerate Email" when the [email_body] is not
    empty; with an empty [email_body] the card shows no email and keeps the
    label "Draft Email". *)
Theorem drafted_email_shown (net : Net) (s : State) (l : list Effect)
    (lead : Lead.t) (index : nat) (res : Response EmailReply) :
  email_backend net (length (posted l)) (email_request s lead) = inr res ->
  let s' := ui (run (handleGenerateEmail net s lead index) {| ui := s; log := l |}) in
  let card := renderLeadCard s' index lead in
  (email_body (data res) <> [] ->
     drafted_email card = Some (email_body (data res)) /\
     draft_label card = js "Regenerate Email") /\
  (email_body (data res) = [] ->
     drafted_email card = None /\ draft_label card = js "Draft Email").
Proof.
  intros Hres s' card. subst card s'.
  rewrite handleGenerateEmail_run. simpl. rewrite Hres. simpl.
  unfold email_at. rewrite lookup_insert_eq.
  destruct (email_body (data res)) as [|c b]; simpl; split; intros H;
    try congruence; split; reflexivity.
Qed.

Lemma drafted_email_shown_witness :
  let s' := ui (run (handleGenerateEmail
                       (Samples.backend_answering (Samples.analysis_with None))
                       Samples.state_with_leads Samples.tiny_lead 0)
                  {| ui := Samples.state_with_leads; log := [] |}) in
  drafted_email (renderLeadCard s' 0 Samples.tiny_lead) = Some (js "Hi team, ...") /\
  draft_label (renderLeadCard s' 0 Samples.tiny_lead) = js "Regenerate Email".
Proof.
  refine (proj1 (drafted_email_shown
                   (Samples.backend_answering (Samples.analysis_with None))
                   Samples.state_with_leads [] Samples.tiny_lead 0
                   {| data := Samples.email_reply |} eq_refl) _).
  discriminate.
Defined.

(** ** The results column *)

(** X10. With a non-empty [leads] list, [renderCampaignResults] shows the
    number of leads and one card per lead, in the order of the list: the
    card at position [i] has key [i] and shows the lead at position [i], and
    there is no card beyond the last lead. *)
Theorem campaign_cards_match_leads (s : State) (r : Result.t)
    (x : Lead.t) (xs : list Lead.t) :
  leads (Result.data r) = Some (x :: xs) ->
  exists cards,
    renderCampaignResults s r = LeadList (length (x :: xs)) cards /\
    length cards = length (x :: xs) /\
    (forall i lead, (x :: xs) !! i = Some lead ->
       exists c, cards !! i = Some c /\ card_key c = i /\ card_lead c = lead) /\
    (forall i, (x :: xs) !! i = None -> cards !! i = None).
Proof.
  intros Hl. exists (imap (renderLeadCard s) (x :: xs)).
  split; [|split; [|split]].
  - unfold renderCampaignResults, no_leads. rewrite Hl. reflexivity.
  - apply length_imap.
  - intros i lead Hi. exists (renderLeadCard s i lead).
    rewrite list_lookup_imap, Hi. repeat split; reflexivity.
  - intros i Hi. rewrite list_lookup_imap, Hi. reflexivity.
Qed.

Lemma campaign_cards_match_leads_witness :
  exists cards,
    renderCampaignResults Samples.state_with_leads
      {| Result.data := Samples.analysis_with (Some [Samples.tiny_lead; Samples.acme_lead]);
         Result.mode := campaign |}
    = LeadList 2 cards /\
    length cards = 2%nat.
Proof.
  destruct (campaign_cards_match_leads Samples.state_with_leads
              {| Result.data :=
                   Samples.analysis_with (Some [Samples.tiny_lead; Samples.acme_lead]);
                 Result.mode := campaign |}
              Samples.tiny_lead [Samples.acme_lead] eq_refl)
    as [cards [H1 [H2 _]]].
  exists cards. split; assumption.
Defined.

(** X11. Only a submission or an email draft changes the results column:
    switching the mode, typing a domain, choosing a category and the copy
    buttons leave it as it is.  In particular the results of a run stay on
    the page, rendered for the mode they were requested in, after the mode
    is switched. *)
Theorem results_unchanged_by_form_events (net : Net) (ev : Event) (w : World) :
  match ev with
  | SubmitForm | ClickDraftEmail _ => True
  | _ => render_results (ui (dispatch net ev w)) = render_results (ui w)
  end.
Proof.
  destruct ev; try exact I; try reflexivity; unfold dispatch.
  - destruct (_ && _); reflexivity.
  - destruct (_ && _); [|reflexivity].
    destruct (SERVICE_CATEGORIES !! option_index); reflexivity.
  - destruct (shown_lead (ui w) idx); reflexivity.
  - destruct (shown_lead (ui w) idx); [|reflexivity].
    destruct (email_at _ _); reflexivity.
  - destruct (render_results (ui w)) as [| | |rep|] eqn:E; exact E.
Qed.

(** X12. No answered deep-analysis submission yields a lead card.  A
    deep-analysis response that carries an [agent_trace] list but no
    [company_dossier] is a success that shows nothing: no error is set, the
    result is stored, and the results column renders as [null]. *)
Theorem deep_without_dossier_blank (net : Net) (s : State) (l : list Effect)
    (res : Response Analysis) :
  mode s = single ->
  forallb is_js_whitespace (domain s) = false ->
  analysis_backend net (length (posted l)) (submit_request s) = inr res ->
  let s' := ui (run (handleSubmit net s) {| ui := s; log := l |}) in
  lead_cards (render_results s') = [] /\
  (forall tr, agent_trace (data res) = Some tr ->
     company_dossier (data res) = None ->
     error s' = None /\
     result s' = Some {| Result.data := data res; Result.mode := single |} /\
     render_results s' = Null).
Proof.
  intros Hm Hd Hres s'. subst s'.
  assert (Hr : rejects_input s = false).
  { rewrite rejects_input_eq, Hd. apply andb_false_r. }
  rewrite (handleSubmit_accepted _ _ _ Hr). simpl. rewrite Hres. split.
  - destruct (agent_trace (data res)); [|reflexivity].
    unfold render_results. simpl. rewrite Hm. simpl.
    unfold renderSingleDomainResults. simpl.
    destruct (company_dossier (data res)); reflexivity.
  - intros tr Htr Hnone. rewrite Htr.
    unfold render_results. simpl. rewrite Hm. simpl.
    unfold renderSingleDomainResults. simpl. rewrite Hnone.
    repeat split; reflexivity.
Qed.

Lemma deep_without_dossier_blank_witness :
  render_results
    (ui (run (handleSubmit (Samples.backend_answering (Samples.analysis_with None))
                Samples.padded_single_state)
           {| ui := Samples.padded_single_state; log := [] |}))
  = Null.
Proof.
  exact (proj2 (proj2 (proj2 (deep_without_dossier_blank
                  (Samples.backend_answering (Samples.analysis_with None))
                  Samples.padded_single_state []
                  {| data := Samples.analysis_with None |}
                  eq_refl eq_refl eq_refl) Samples.server_trace eq_refl eq_refl))).
Defined.

(** X13. In the deep-analysis report the optional parts appear as follows:
    the subject-line row is shown exactly when a subject line is present,
    not empty and not "N/A"; the "None identified" line stands exactly when
    there are no pain points (missing or empty list), otherwise the pain
    points are listed as received; the tech-stack block is shown exactly
    when the dossier has a non-empty tech stack. *)
Theorem report_optional_sections (r : Result.t) (rep : DeepReport) :
  renderSingleDomainResults r = Report rep ->
  let a := Result.data r in
  let pains := strategic_analysis a ≫= Strategic.pain_points in
  (forall sl, subject_line_row rep = Some sl <->
     outreach_strategy a ≫= Outreach.subject_line = Some sl /\
     sl <> [] /\ sl <> js "N/A") /\
  (none_identified rep = true <-> pains = None \/ pains = Some []) /\
  (forall ps, pains = Some ps -> pain_point_items rep = ps) /\
  (forall ts, tech_stack_tags rep = Some ts <->
     (company_dossier a ≫= Dossier.estimated_tech_stack) = Some ts /\ ts <> []).
Proof.
  unfold renderSingleDomainResults.
  destruct (company_dossier (Result.data r)) as [d|] eqn:Hd; [|discriminate].
  intros H. inversion H; subst rep; clear H. simpl.
  split; [|split; [|split]].
  - intros sl.
    destruct (outreach_strategy (Result.data r) ≫= Outreach.subject_line) as [x|];
      [|split; [discriminate | intros [? _]; discriminate]].
    unfold jsstring_eqb.
    destruct x as [|c x]; simpl.
    + split; [discriminate | intros [E [Hne _]]; inversion E; subst; congruence].
    + destruct (bool_decide (c :: x = js "N/A")) eqn:E; simpl.
      * apply bool_decide_eq_true in E.
        split; [discriminate | intros [E' [_ Hne]]; inversion E'; subst; congruence].
      * apply bool_decide_eq_false in E. split.
        -- intros E'. inversion E'; subst. repeat split; congruence.
        -- intros [E' _]. exact E'.
  - destruct (strategic_analysis (Result.data r) ≫= Strategic.pain_points)
      as [[|p ps]|]; split; auto; try discriminate.
    intros [H | H]; discriminate.
  - intros ps Hps. rewrite Hps. reflexivity.
  - intros ts. destruct (Dossier.estimated_tech_stack d) as [[|t ts']|]; simpl.
    + split; [discriminate | intros [E Hne]; inversion E; subst; congruence].
    + split; [intros E; inversion E; subst; split; [reflexivity | discriminate]
             | intros [E _]; exact E].
    + split; [discriminate | intros [E _]; discriminate].
Qed.

Lemma report_optional_sections_witness :
  exists rep,
    renderSingleDomainResults (Samples.deep_result (Some (js "NO")) None) = Report rep /\
    none_identified rep = true /\
    tech_stack_tags rep = Some [js "React"; js "FastAPI"].
Proof.
  eexists. split; [reflexivity|].
  destruct (report_optional_sections
              (Samples.deep_result (Some (js "NO")) None) _ eq_refl)
    as [_ [Hnone [_ Htech]]].
  split.
  - apply (proj2 Hnone). left. reflexivity.
  - apply (proj2 (Htech _)). split; [reflexivity | discriminate].
Defined.

(** ** Invariants of the page *)

Lemma run_events_invariant (P : World -> Prop) (net : Net) :
  (forall ev w, P w -> P (dispatch net ev w)) ->
  forall evs w, P w -> P (run_events net evs w).
Proof.
  intros Hstep evs. induction evs as [|ev evs IH]; intros w Hw; [exact Hw|].
  simpl. apply IH, Hstep, Hw.
Qed.

Lemma dispatch_trace (net : Net) (ev : Event) (w : World) :
  trace (ui (dispatch net ev w)) = trace (ui w) \/
  exists tl, trace (ui (dispatch net ev w)) = initial_trace_line :: tl.
Proof.
  destruct ev; simpl; try (left; reflexivity).
  - destruct (_ && _); left; reflexivity.
  - destruct (_ && _); [|left; reflexivity].
    destruct (SERVICE_CATEGORIES !! option_index); left; reflexivity.
  - destruct (_ || _); [left; reflexivity|].
    destruct (rejects_input (ui w)) eqn:Hr.
    + rewrite (handleSubmit_rejected _ _ _ Hr). left. reflexivity.
    + rewrite (handleSubmit_accepted _ _ _ Hr). right.
      case_answer; eexists; reflexivity.
  - destruct (shown_lead (ui w) idx); [|left; reflexivity].
    destruct (flag_at _ _); [left; reflexivity|].
    rewrite handleGenerateEmail_run.
    destruct (email_backend _ _ _); left; reflexivity.
  - destruct (shown_lead (ui w) idx); left; reflexivity.
  - destruct (shown_lead (ui w) idx); [|left; reflexivity].
    destruct (email_at _ _); left; reflexivity.
  - destruct (render_results (ui w)); left; reflexivity.
Qed.

(** X14. Whatever the user does from the initial page, the displayed trace
    is either empty (nothing was submitted yet) or begins with the line
    "Initializing autonomous intelligence engine...". *)
Theorem trace_starts_with_opening_line (net : Net) (evs : list Event) :
  let t := trace (ui (run_events net evs (world_of initial_state))) in
  t = [] \/
  exists tl, t = js "Initializing autonomous intelligence engine..." :: tl.
Proof.
  apply (run_events_invariant
           (fun w => trace (ui w) = [] \/
                     exists tl, trace (ui w) = initial_trace_line :: tl)).
  - intros ev w Hw.
    destruct (dispatch_trace net ev w) as [E | E]; [rewrite E; exact Hw | right; exact E].
  - left. reflexivity.
Qed.

Lemma dispatch_controls (net : Net) (ev : Event) (w : World) :
  loading (ui w) = false ->
  (forall i, flag_at (emailLoading (ui w)) i = false) ->
  loading (ui (dispatch net ev w)) = false /\
  (forall i, flag_at (emailLoading (ui (dispatch net ev w))) i = false).
Proof.
  intros Hl Hf. destruct ev; simpl; try (split; assumption).
  - destruct (_ && _); split; assumption.
  - destruct (_ && _); [|split; assumption].
    destruct (SERVICE_CATEGORIES !! option_index); split; assumption.
  - destruct (_ || _); [split; assumption|].
    destruct (rejects_input (ui w)) eqn:Hr.
    + rewrite (handleSubmit_rejected _ _ _ Hr). split; assumption.
    + rewrite (handleSubmit_accepted _ _ _ Hr).
      case_answer; split; try reflexivity; assumption.
  - destruct (shown_lead (ui w) idx); [|split; assumption].
    destruct (flag_at _ _); [split; assumption|].
    rewrite handleGenerateEmail_run.
    destruct (email_backend _ _ _); simpl; (split; [assumption|]);
      intros i; unfold flag_at;
      (destruct (decide (idx = i)) as [->|Hne];
       [rewrite lookup_insert_eq; reflexivity
       | rewrite !lookup_insert_ne by exact Hne; apply Hf]).
  - destruct (shown_lead (ui w) idx); split; assumption.
  - destruct (shown_lead (ui w) idx); [|split; assumption].
    destruct (email_at _ _); split; assumption.
  - destruct (render_results (ui w)); split; assumption.
Qed.

(** X15. No handler leaves a control disabled: once the events the user
    raised have been handled, [loading] is false and no email spinner is on,
    whether the requests succeeded or failed ([finally] resets both). *)
Theorem controls_enabled_after_events (net : Net) (evs : list Event) :
  let s := ui (run_events net evs (world_of initial_state)) in
  loading s = false /\ forall i, flag_at (emailLoading s) i = false.
Proof.
  apply (run_events_invariant
           (fun w => loading (ui w) = false /\
                     forall i, flag_at (emailLoading (ui w)) i = false)).
  - intros ev w [Hl Hf]. apply dispatch_controls; assumption.
  - split; [reflexivity|]. intros i. reflexivity.
Qed.

(** X16. Every request the page posts, to any of the three endpoints,
    carries a [service_category] that is one of the four categories: a
    request is either the one-field body for /analyze, the domain and the
    category for /deep_analyze, or the three fields of a lead and the
    category for /generate_email. *)
Theorem every_request_well_formed (net : Net) (evs : list Event) (r : Request) :
  r ∈ posted (log (run_events net evs (world_of initial_state))) ->
  exists c, c ∈ SERVICE_CATEGORIES /\
    (r = {| url := js "http://localhost:8000/analyze";
            body := [(js "service_category", c)] |} \/
     (exists d, r = {| url := js "http://localhost:8000/deep_analyze";
                       body := [(js "domain", d); (js "service_category", c)] |}) \/
     (exists lead, r = {| url := js "http://localhost:8000/generate_email";
                          body := [(js "company_name", Lead.name lead);
                                   (js "domain", Lead.domain lead);
                                   (js "why_we_help", Lead.why_we_help lead);
                                   (js "service_category", c)] |})).
Proof.
  revert r.
  refine (proj2 (run_events_invariant
           (fun w => serviceCategory (ui w) ∈ SERVICE_CATEGORIES /\
                     forall r, r ∈ posted (log w) -> _) net _ evs
           (world_of initial_state) _)).
  - intros ev w [Hcat Hlog]. split.
    + destruct (dispatch_category net ev w) as [-> | H]; assumption.
    + intros r Hr.
      destruct (dispatch_posted net ev w) as [E | [E | [lead E]]];
        rewrite E in Hr; [auto | |].
      * apply elem_of_app in Hr as [Hr | Hr]; [auto|].
        apply list_elem_of_singleton in Hr. subst r.
        exists (serviceCategory (ui w)). split; [assumption|].
        unfold submit_request. destruct (Mode_eqb (mode (ui w)) campaign).
        -- left. reflexivity.
        -- right. left. eexists. reflexivity.
      * apply elem_of_app in Hr as [Hr | Hr]; [auto|].
        apply list_elem_of_singleton in Hr. subst r.
        exists (serviceCategory (ui w)). split; [assumption|].
        right. right. exists lead. reflexivity.
  - split; [apply list_elem_of_here|]. intros r Hr. inversion Hr.
Qed.

Lemma every_request_well_formed_witness :
  exists c, c ∈ SERVICE_CATEGORIES /\
    ({| url := js "http://localhost:8000/deep_analyze";
        body := [(js "domain", js "acmelabs.dev");
                 (js "service_category", js "AI & Data Analytics")] |}
     = {| url := js "http://localhost:8000/analyze";
          body := [(js "service_category", c)] |} \/
     (exists d, {| url := js "http://localhost:8000/deep_analyze";
                   body := [(js "domain", js "acmelabs.dev");
                            (js "service_category", js "AI & Data Analytics")] |}
                = {| url := js "http://localhost:8000/deep_analyze";
                     body := [(js "domain", d); (js "service_category", c)] |}) \/
     (exists lead, {| url := js "http://localhost:8000/deep_analyze";
                      body := [(js "domain", js "acmelabs.dev");
                               (js "service_category", js "AI & Data Analytics")] |}
                   = {| url := js "http://localhost:8000/generate_email";
                        body := [(js "company_name", Lead.name lead);
                                 (js "domain", Lead.domain lead);
                                 (js "why_we_help", Lead.why_we_help lead);
                                 (js "service_category", c)] |})).
Proof.
  apply (every_request_well_formed Samples.backend_down
           [ChangeCategory 1; ClickDeepAnalyze; ChangeDomain (js "acmelabs.dev");
            SubmitForm]).
  vm_compute. apply list_elem_of_here.
Defined.

(** X17. An event makes the page post at most one request: after a
    sequence of events the number of requests posted is at most the number
    of events. *)
Theorem at_most_one_request_per_event (net : Net) (evs : list Event) (w : World) :
  (length (posted (log (run_events net evs w)))
   <= length (posted (log w)) + length evs)%nat.
Proof.
  revert w. induction evs as [|ev evs IH]; intros w; simpl; [lia|].
  specialize (IH (dispatch net ev w)).
  assert (length (posted (log (dispatch net ev w))) <= S (length (posted (log w))))%nat.
  { destruct (dispatch_posted net ev w) as [E | [E | [lead E]]]; rewrite E;
      rewrite ?length_app; simpl; lia. }
  lia.
Qed.

(** * Properties of the campaign-only front end *)

Lemma campaign_for_of_agent_trace (tr : list jsstring) (w : CampaignApp.World) :
  CampaignApp.for_of tr (fun step =>
    CampaignApp.bind (CampaignApp.setTrace (fun prev => prev ++ [step]))
      (fun _ => CampaignApp.effect (Slept 800))) w =
  (inr tt, {| CampaignApp.ui :=
                CampaignApp.upd_trace (fun prev => prev ++ tr) (CampaignApp.ui w);
              CampaignApp.log :=
                CampaignApp.log w ++ map (fun _ => Slept 800) tr |}).
Proof.
  revert w. induction tr as [|step tr IH]; intros [[c lo r e t em el] l].
  - simpl. unfold CampaignApp.ret, CampaignApp.upd_trace. simpl.
    rewrite !app_nil_r. reflexivity.
  - simpl. unfold CampaignApp.bind at 1. unfold CampaignApp.bind at 1.
    unfold CampaignApp.setTrace, CampaignApp.set_state, CampaignApp.effect.
    simpl. rewrite IH. unfold CampaignApp.upd_trace. simpl.
    rewrite <- !app_assoc. reflexivity.
Qed.

Lemma posted_cons_post (r : Request) (l : list Effect) :
  posted (Posted r :: l) = r :: posted l.
Proof. reflexivity. Qed.

Lemma posted_pauses800 (tr : list jsstring) :
  posted (map (fun _ => Slept 800) tr) = [].
Proof. induction tr; simpl; auto. Qed.

(** What a submission of the campaign-only page does, by the answer of the
    back end. *)
Lemma campaign_handleSubmit_run (net : Net) (s : CampaignApp.State)
    (w : CampaignApp.World) :
  CampaignApp.run (CampaignApp.handleSubmit net s) w =
  let req := {| url := API_BASE_URL ++ js "/analyze";
                body := [(js "service_category", CampaignApp.serviceCategory s)] |} in
  let u := CampaignApp.ui w in
  match analysis_backend net (length (posted (CampaignApp.log w))) req with
  | inr res =>
    match agent_trace (data res) with
    | Some tr =>
      {| CampaignApp.ui :=
           {| CampaignApp.serviceCategory := CampaignApp.serviceCategory u;
              CampaignApp.loading := false;
              CampaignApp.result := Some (data res);
              CampaignApp.error := None;
              CampaignApp.trace := initial_trace_line :: tr;
              CampaignApp.emails := CampaignApp.emails u;
              CampaignApp.emailLoading := CampaignApp.emailLoading u |};
         CampaignApp.log :=
           CampaignApp.log w ++ Posted req :: map (fun _ => Slept 800) tr |}
    | None =>
      {| CampaignApp.ui :=
           {| CampaignApp.serviceCategory := CampaignApp.serviceCategory u;
              CampaignApp.loading := false;
              CampaignApp.result := None;
              CampaignApp.error := Some CampaignApp.submit_failure_message;
              CampaignApp.trace := [initial_trace_line];
              CampaignApp.emails := CampaignApp.emails u;
              CampaignApp.emailLoading := CampaignApp.emailLoading u |};
         CampaignApp.log := CampaignApp.log w ++ [Posted req; ConsoleError] |}
    end
  | inl err =>
    {| CampaignApp.ui :=
         {| CampaignApp.serviceCategory := CampaignApp.serviceCategory u;
            CampaignApp.loading := false;
            CampaignApp.result := None;
            CampaignApp.error :=
              Some (or_else (error_detail err) CampaignApp.submit_failure_message);
            CampaignApp.trace := [initial_trace_line];
            CampaignApp.emails := CampaignApp.emails u;
            CampaignApp.emailLoading := CampaignApp.emailLoading u |};
       CampaignApp.log := CampaignApp.log w ++ [Posted req; ConsoleError] |}
  end.
Proof.
  destruct w as [[c lo r e t em el] l].
  unfold CampaignApp.run, CampaignApp.handleSubmit.
  unfold CampaignApp.bind at 1. unfold CampaignApp.bind at 1.
  unfold CampaignApp.bind at 1. unfold CampaignApp.bind at 1.
  unfold CampaignApp.setLoading, CampaignApp.setError, CampaignApp.setResult,
    CampaignApp.setTrace at 1.
  unfold CampaignApp.set_state. simpl.
  unfold CampaignApp.try_finally, CampaignApp.try_catch.
  unfold CampaignApp.bind at 1. unfold CampaignApp.axios_post. simpl.
  match goal with
  | |- context [analysis_backend net ?n ?q] =>
    destruct (analysis_backend net n q) as [err|res]
  end; simpl.
  - rewrite <- app_assoc. reflexivity.
  - unfold CampaignApp.bind at 1. unfold CampaignApp.for_of_field.
    destruct (agent_trace (data res)) as [tr|]; simpl.
    + rewrite campaign_for_of_agent_trace. simpl.
      rewrite <- app_assoc. reflexivity.
    + rewrite <- app_assoc. reflexivity.
Qed.


(** X18. The campaign-only page has no input guard: every submission posts
    exactly one request, to /analyze with the selected category; afterwards
    [loading] is false, the trace is the opening line followed by the
    server's lines (none on failure), and exactly one of [result] and
    [error] is set: the response on success; on failure the [detail] of the
    error or the message "Failed to analyze category. Is the backend
    running?", which is also what an answer without an [agent_trace] to
    iterate leads to. *)
Theorem campaign_app_submit (net : Net) (s : CampaignApp.State) (l : list Effect) :
  let req := {| url := js "http://localhost:8000/analyze";
                body := [(js "service_category", CampaignApp.serviceCategory s)] |} in
  let w' := CampaignApp.run (CampaignApp.handleSubmit net s)
              {| CampaignApp.ui := s; CampaignApp.log := l |} in
  let s' := CampaignApp.ui w' in
  posted (CampaignApp.log w') = posted l ++ [req] /\
  CampaignApp.loading s' = false /\
  match analysis_backend net (length (posted l)) req with
  | inr res =>
    match agent_trace (data res) with
    | Some tr =>
      CampaignApp.result s' = Some (data res) /\
      CampaignApp.error s' = None /\
      CampaignApp.trace s' = initial_trace_line :: tr
    | None =>
      CampaignApp.result s' = None /\
      CampaignApp.error s' =
        Some (js "Failed to analyze category. Is the backend running?") /\
      CampaignApp.trace s' = [initial_trace_line]
    end
  | inl err =>
    CampaignApp.result s' = None /\
    CampaignApp.error s' =
      Some (or_else (error_detail err)
              (js "Failed to analyze category. Is the backend running?")) /\
    CampaignApp.trace s' = [initial_trace_line]
  end.
Proof.
  intros req w' s'. subst s' w'. rewrite campaign_handleSubmit_run. cbv zeta.
  change {| url := API_BASE_URL ++ js "/analyze";
            body := [(js "service_category", CampaignApp.serviceCategory s)] |}
    with req.
  cbn [CampaignApp.log CampaignApp.ui].
  destruct (analysis_backend net (length (posted l)) req) as [err|res];
    [|destruct (agent_trace (data res)) as [tr|]];
    cbn [CampaignApp.log CampaignApp.ui CampaignApp.loading CampaignApp.result
         CampaignApp.error CampaignApp.trace];
    rewrite posted_app, posted_cons_post, ?posted_pauses800;
    repeat split; reflexivity.
Qed.

(** ** The two pages side by side *)








(** ** Pacing of the trace *)

(** X21. The outside effects of an accepted submission are, in order: the
    request; then, when it is answered with an [agent_trace] list, one pause
    of 600 ms per line of that list and nothing else (no alert, no console
    error); when the request fails, or is answered without an [agent_trace]
    that can be iterated, one console error and no pause. *)
Theorem submit_effects (net : Net) (s : State) (l : list Effect) :
  rejects_input s = false ->
  log (run (handleSubmit net s) {| ui := s; log := l |}) =
  l ++ Posted (submit_request s) ::
    match analysis_backend net (length (posted l)) (submit_request s) with
    | inr res =>
      match agent_trace (data res) with
      | Some tr => repeat (Slept 600) (length tr)
      | None => [ConsoleError]
      end
    | inl _ => [ConsoleError]
    end.
Proof.
  intros Hr. rewrite (handleSubmit_accepted _ _ _ Hr). simpl.
  destruct (analysis_backend net (length (posted l)) (submit_request s)) as [err|res];
    simpl; [reflexivity|].
  destruct (agent_trace (data res)) as [tr|]; simpl; [|reflexivity].
  do 2 f_equal. induction tr as [|x t IH]; simpl;
    [reflexivity | rewrite IH; reflexivity].
Qed.

Lemma submit_effects_witness :
  log (run (handleSubmit (Samples.backend_answering (Samples.analysis_with None))
              initial_state)
         {| ui := initial_state; log := [] |}) =
  [Posted {| url := js "http://localhost:8000/analyze";
             body := [(js "service_category", js "Application Development")] |};
   Slept 600; Slept 600; Slept 600].
Proof.
  exact (submit_effects (Samples.backend_answering (Samples.analysis_with None))
           initial_state [] eq_refl).
Defined.
